(** * The Databricks data access layer: query execution, connection-mode
      resolution and numeric normalisation

    Shallow embedding of [data_layer.py] (class [DatabricksDataLayer]) and of
    [ensure_numeric_columns] from [app.py].

    The Python code is glue around three libraries: pandas, the Databricks
    connectors and Streamlit.  None of them is part of the repository, so
    each one enters the development as an interface (a type class): the
    repository's own control flow is embedded definition by definition, the
    library calls are the operations of the interface, and what the proofs
    need to know about a library is stated as a law of that interface. *)

From Stdlib Require Import Ascii.
From stdpp Require Import base option list strings gmap pretty.

Local Open Scope string_scope.
Local Open Scope list_scope.

(** ** Python exceptions and results *)

Inductive exn : Type :=
| ValueError (msg : string)
| AttributeError (msg : string)
| KeyError (key : string)
| IndexError (msg : string)
| LibraryError (msg : string).   (* raised inside pandas, a connector or Spark *)

Inductive result (A : Type) : Type :=
| Ok (a : A)
| Raise (e : exn).
Arguments Ok {A} a.
Arguments Raise {A} e.

Definition rbind {A B} (r : result A) (k : A → result B) : result B :=
  match r with
  | Ok a => k a
  | Raise e => Raise e
  end.

#[export] Instance result_bind : MBind result := λ A B k r, rbind r k.
#[export] Instance result_ret : MRet result := λ A a, Ok a.

(** [for x in xs: acc = body(acc, x)], stopping at the first exception. *)
Fixpoint for_each {A S} (body : S → A → result S) (xs : list A) (acc : S) : result S :=
  match xs with
  | [] => Ok acc
  | x :: xs' => acc' ← body acc x; for_each body xs' acc'
  end.

(** Truth value of [os.getenv(name)]: [None] and the empty string are falsy. *)
Definition truthy (v : option string) : bool :=
  match v with
  | Some s => negb (String.eqb s "")
  | None => false
  end.

(** [s.replace(old, new)] for a non-empty [old]: occurrences are found left to
    right and do not overlap.  [skip] counts the characters of a match that
    are still to be dropped. *)
Fixpoint replace_from (old new s : string) (skip : nat) : string :=
  match s with
  | EmptyString => EmptyString
  | String c rest =>
      match skip with
      | S k => replace_from old new rest k
      | O =>
          if String.prefix old s
          then new +:+ replace_from old new rest (String.length old - 1)
          else String c (replace_from old new rest 0)
      end
  end.

Definition replace (old new s : string) : string := replace_from old new s 0.

(** [s] has no occurrence of [old]. *)
Fixpoint free_of (old s : string) : bool :=
  match s with
  | EmptyString => true
  | String _ rest => negb (String.prefix old s) && free_of old rest
  end.

(** Names in order of first occurrence, leaving out those already [seen]. *)
Fixpoint new_names (seen names : list string) : list string :=
  match names with
  | [] => []
  | k :: names' =>
      if decide (k ∈ seen) then new_names seen names'
      else k :: new_names (seen ++ [k]) names'
  end.

(** ** pandas *)

(** The scalars a frame can hold.  [num] stands for the numeric scalars (Python
    and NumPy integers and floats), [obj] for every other Python object a
    connector may hand over ([Decimal], [date], ...). *)
Class PyValues : Type := { num : Type; obj : Type }.

(** A Python scalar as a cell of a frame.  [PyNull] is a missing value: pandas
    reads [None] and [NaN] alike as missing ([isna]). *)
Inductive pyobj `{PyValues} : Type :=
| PyNull
| PyNum (v : num)
| PyStr (s : string)
| PyObj (o : obj).

(** A column (a [Series]) together with its dtype.  The source only ever asks
    [dtype == 'object'], so dtypes are kept in three classes: the native
    numeric ones (int64, float64, ...), whose cells are numbers or NaN;
    [object]; and the remaining ones (datetime64, bool, ...). *)
Inductive column `{PyValues} : Type :=
| NumericCol (cells : list (option num))
| ObjectCol (cells : list pyobj)
| OtherCol (cells : list pyobj).

(** A [DataFrame]: its columns in order.  pandas allows a name to occur
    more than once.  Row labels are left out: every frame the layer handles
    carries the default range index. *)
Abbreviation DataFrame := (list (string * column)).

Section Frames.
Context `{PyValues}.

Definition num_cell (c : option num) : pyobj :=
  match c with
  | Some v => PyNum v
  | None => PyNull
  end.

(** [Series.tolist()] *)
Definition tolist (c : column) : list pyobj :=
  match c with
  | NumericCol l => num_cell <$> l
  | ObjectCol l => l
  | OtherCol l => l
  end.

(** [series.dtype == 'object'] *)
Definition is_object (c : column) : bool :=
  match c with
  | ObjectCol _ => true
  | _ => false
  end.

(** [series.isna().all()] of a numeric column; true of an empty one. *)
Definition isna_all (l : list (option num)) : bool :=
  forallb (λ c, match c with None => true | Some _ => false end) l.

(** [df.columns] *)
Definition columns (df : DataFrame) : list string := df.*1.

(** [len(df)] *)
Definition nrows (df : DataFrame) : nat :=
  match df with
  | [] => 0
  | (_, c) :: _ => length (tolist c)
  end.

(** [d[k] = v] on a Python [dict]: a new key goes last, an existing key
    keeps its place and takes the new value. *)
Fixpoint dict_set {V} (k : string) (v : V) (d : list (string * V)) : list (string * V) :=
  match d with
  | [] => [(k, v)]
  | (k', v') :: d' =>
      if decide (k = k') then (k, v) :: d' else (k', v') :: dict_set k v d'
  end.

(** [df.to_dict('list')]: one list per column name, filled in column
    order. *)
Definition to_dict_list (df : DataFrame) : list (string * list pyobj) :=
  foldl (λ d kc, dict_set kc.1 (tolist kc.2) d) [] df.

(** [df[col]] followed by [.dtype]: a single column when the name occurs
    once; with a repeated name [df[col]] is a frame, which has no [dtype]. *)
Definition getitem (df : DataFrame) (col : string) : result column :=
  match filter (λ kc, kc.1 = col) df with
  | [] => Raise (KeyError col)
  | [(_, c)] => Ok c
  | _ => Raise (AttributeError "'DataFrame' object has no attribute 'dtype'")
  end.

(** [df[col] = series] for a name that is already a column. *)
Definition setitem (df : DataFrame) (col : string) (c : column) : DataFrame :=
  (λ kc : string * column, if decide (kc.1 = col) then (kc.1, c) else kc) <$> df.
End Frames.

(** What the code calls in pandas beyond the frame structure. *)
Class Pandas `{PyValues} : Type := {
  (** the number [pd.to_numeric] reads in a string, if any *)
  parse_str : string → option num;
  (** the number [pd.to_numeric] reads in another object, if any *)
  parse_obj : obj → option num;
  (** the column the [DataFrame] constructor builds from a list of values:
      its dtype is inferred from the values *)
  from_list : list pyobj → column;
  (** inputs on which [pd.to_numeric(..., errors='coerce')] itself raises;
      the data layer guards the call with [try]/[except] *)
  to_numeric_raises : list pyobj → option exn
}.

Section Normalizer.
Context `{Pandas}.

(** The number a cell parses to under [errors='coerce']; [None] is NaN. *)
Definition parse (c : pyobj) : option num :=
  match c with
  | PyNull => None
  | PyNum v => Some v
  | PyStr s => parse_str s
  | PyObj o => parse_obj o
  end.

(** [pd.to_numeric(series, errors='coerce')] on an object column. *)
Definition to_numeric (cells : list pyobj) : result (list (option num)) :=
  match to_numeric_raises cells with
  | Some e => Raise e
  | None => Ok (parse <$> cells)
  end.

(** [pd.DataFrame(mapping)] for a mapping from names to lists. *)
Definition DataFrame_of_dict (d : list (string * list pyobj)) : DataFrame :=
  (λ kl : string * list pyobj, (kl.1, from_list kl.2)) <$> d.

(** The width of the widest row. *)
Definition row_width (data : list (list pyobj)) : nat :=
  foldr (λ row w, Nat.max (length row) w) 0%nat data.

(** [pd.DataFrame(data, columns=columns)] for a list of rows.  Without rows
    every column is an empty column of object dtype.  Otherwise the widest row
    must be as wide as the list of names, shorter rows are filled up with
    missing values, and the dtype of each column is inferred from its
    values. *)
Definition DataFrame_of_rows (data : list (list pyobj)) (names : list string)
    : result DataFrame :=
  match data with
  | [] => Ok ((λ name : string, (name, ObjectCol [])) <$> names)
  | _ :: _ =>
      if Nat.eqb (row_width data) (length names)
      then Ok (imap (λ j name, (name, from_list ((λ row, default PyNull (row !! j)) <$> data)))
                 names)
      else Raise (ValueError (pretty (length names) +:+ " columns passed, passed data had "
                              +:+ pretty (row_width data) +:+ " columns"))
  end.

(** Body of the loop of [_convert_numeric_columns] (data_layer.py). *)
Definition _convert_numeric_column (df : DataFrame) (col : string) : result DataFrame :=
  series ← getitem df col;
  match series with
  | ObjectCol cells =>
      match to_numeric cells with
      | Ok converted =>
          if negb (isna_all converted)
          then Ok (setitem df col (NumericCol converted))
          else Ok df
      | Raise _ => Ok df                       (* except Exception: pass *)
      end
  | _ => Ok df
  end.

Definition _convert_numeric_columns (df : DataFrame) : result DataFrame :=
  let df := DataFrame_of_dict (to_dict_list df) in
  for_each _convert_numeric_column (columns df) df.

(** Body of the loop of [ensure_numeric_columns] (app.py). *)
Definition ensure_numeric_column (df : DataFrame) (col : string) : result DataFrame :=
  series ← getitem df col;
  match series with
  | ObjectCol cells =>
      converted ← to_numeric cells;
      if negb (isna_all converted)
      then Ok (setitem df col (NumericCol converted))
      else Ok df
  | _ => Ok df
  end.

Definition ensure_numeric_columns (df : DataFrame) : result DataFrame :=
  let df := df in                                 (* df.copy() *)
  for_each ensure_numeric_column (columns df) df.

(** *** The normaliser, column by column *)

(** [f] applied to every column, names and order kept. *)
Definition map_columns (f : column → column) (df : DataFrame) : DataFrame :=
  (λ kc : string * column, (kc.1, f kc.2)) <$> df.

(** What one turn of the loop of [_convert_numeric_columns] makes of the
    column it looks at. *)
Definition converted_column (c : column) : column :=
  match c with
  | ObjectCol cells =>
      match to_numeric_raises cells with
      | Some _ => c
      | None => if isna_all (parse <$> cells) then c else NumericCol (parse <$> cells)
      end
  | _ => c
  end.

(** The frame rebuilt from its own mapping: the first line of
    [_convert_numeric_columns]. *)
Definition rebuilt (df : DataFrame) : DataFrame :=
  DataFrame_of_dict (to_dict_list df).

(** A column is as the constructor builds it when rebuilding it from its
    values gives it back. *)
Definition as_built (c : column) : Prop := from_list (tolist c) = c.

(** [pd.to_numeric] returns on the column (always, for a column that is not
    of object dtype: the loop does not call it there). *)
Definition to_numeric_returns (c : column) : Prop :=
  match c with
  | ObjectCol cells => to_numeric_raises cells = None
  | _ => True
  end.

(** The normaliser leaves the column as it is: a native numeric column, or
    an object column none of whose values parses as a number. *)
Definition not_converted (c : column) : Prop :=
  match c with
  | NumericCol _ => True
  | ObjectCol cells => ∀ x, x ∈ cells → parse x = None
  | OtherCol _ => False
  end.


(** The frame [out] has the names of [df], in the same order, as many rows,
    and at the place of every column [df] has that is not converted a column
    with the same values. *)
Definition frame_preserved (df out : DataFrame) : Prop :=
  (∀ name, name ∈ columns out ↔ name ∈ columns df) ∧
  columns out = columns df ∧
  nrows out = nrows df ∧
  ∀ i name c, df !! i = Some (name, c) → not_converted c →
    ∃ c', out !! i = Some (name, c') ∧ tolist c' = tolist c.
End Normalizer.

(** What the proofs use of pandas. *)
Class PandasLaws `{Pandas} : Prop := {
  (** a column built from a list holds the values of the list *)
  tolist_from_list : ∀ l : list pyobj, tolist (from_list l) = l;
  (** a list of numbers and NaN with at least one number is stored under a
      native numeric dtype *)
  from_list_numbers : ∀ l : list (option num),
    isna_all l = false → from_list (num_cell <$> l) = NumericCol l
}.

(** ** The Databricks connectors *)

(** What the layer calls outside the process.  [world] is the state of
    everything out there (workspace, warehouse, cluster); each call may
    change it and may raise. *)
Class Databricks `{PyValues} : Type := {
  world : Type;
  (** handle returned by [databricks.sql.connect] *)
  connection : Type;
  (** handle returned by [DatabricksSession.builder.getOrCreate()] *)
  session : Type;
  (** [sql.connect(server_hostname, http_path, access_token)] *)
  sql_connect : string → string → string → world → result connection * world;
  (** [with connection.cursor() as cursor]: [cursor.execute(query)], then
      [cursor.description] (name and type of each column) and
      [cursor.fetchall()] *)
  cursor_fetch : connection → string → world →
    result (list (string * string) * list (list pyobj)) * world;
  (** [DatabricksSession.builder.getOrCreate()] *)
  getOrCreate : world → result session * world;
  (** [session.sql(query).toPandas()] *)
  sql_toPandas : session → string → world → result DataFrame * world
}.

(** The metric catalogue: the eleven cached methods, the ranking ones with
    their [limit] argument. *)
Inductive metric : Type :=
| orders_summary
| kpi_metrics
| orders_by_status
| orders_by_priority
| top_customers (limit : Z)
| revenue_by_region
| market_segment_analysis
| top_parts_by_revenue (limit : Z)
| supplier_performance (limit : Z)
| monthly_trend_by_segment
| order_fulfillment_metrics.

#[export] Instance metric_eq_dec : EqDecision metric.
Proof. solve_decision. Defined.

Definition metric_code (m : metric) : nat * Z :=
  match m with
  | orders_summary => (0, 0%Z)
  | kpi_metrics => (1, 0%Z)
  | orders_by_status => (2, 0%Z)
  | orders_by_priority => (3, 0%Z)
  | top_customers limit => (4, limit)
  | revenue_by_region => (5, 0%Z)
  | market_segment_analysis => (6, 0%Z)
  | top_parts_by_revenue limit => (7, limit)
  | supplier_performance limit => (8, limit)
  | monthly_trend_by_segment => (9, 0%Z)
  | order_fulfillment_metrics => (10, 0%Z)
  end.

Definition metric_decode (c : nat * Z) : metric :=
  match c.1 with
  | 0 => orders_summary
  | 1 => kpi_metrics
  | 2 => orders_by_status
  | 3 => orders_by_priority
  | 4 => top_customers c.2
  | 5 => revenue_by_region
  | 6 => market_segment_analysis
  | 7 => top_parts_by_revenue c.2
  | 8 => supplier_performance c.2
  | 9 => monthly_trend_by_segment
  | _ => order_fulfillment_metrics
  end.

#[export] Instance metric_countable : Countable metric.
Proof. apply (inj_countable' metric_code metric_decode). by intros []. Defined.

(** What a cached method returns: a frame, or the mapping
    [result.iloc[0].to_dict()] of [get_kpi_metrics]. *)
Inductive value `{PyValues} : Type :=
| Frame (df : DataFrame)
| Mapping (d : list (string * pyobj)).

(** An entry of the result cache. *)
Record entry `{PyValues} : Type := { cached : value; stored_at : Z }.

(** What the process does that can be observed from outside it, newest
    first.  [Executes] marks an entry into [_execute_query]; the other events
    are the calls that go over the network. *)
Inductive event : Type :=
| Executes (query : string)
| Connects (host http_path token : string)
| Fetches (query : string)
| OpensSession
| RunsSpark (query : string).

(** The instance attributes set by [__init__]. *)
Record DatabricksDataLayer `{Databricks} : Type := {
  _connection : option connection;
  _spark : option session;
  _use_sql_connector : option bool
}.

(** The process: the singleton data layer, the world it talks to, the record
    of what it did, and Streamlit's result cache. *)
Record process `{Databricks} : Type := {
  self : DatabricksDataLayer;
  outside : world;
  trace : list event;
  cache : gmap metric entry
}.

Section Layer.
Context `{Pandas} `{!Databricks}.

(** [__init__] *)
Definition __init__ : DatabricksDataLayer :=
  {| _connection := None; _spark := None; _use_sql_connector := None |}.

(** A method: it reads and updates the process and returns or raises.  An
    exception keeps the updates made before it. *)
Definition M (A : Type) : Type := process → result A * process.

Definition ret {A} (a : A) : M A := λ p, (Ok a, p).

Definition raise {A} (e : exn) : M A := λ p, (Raise e, p).

Definition bind {A B} (m : M A) (k : A → M B) : M B :=
  λ p, match m p with
       | (Ok a, p') => k a p'
       | (Raise e, p') => (Raise e, p')
       end.

Notation "x <- m ;; k" := (bind m (λ x, k))
  (at level 100, m at next level, right associativity).
Notation "m ;; k" := (bind m (λ _, k))
  (at level 100, right associativity).

Definition lift {A} (r : result A) : M A := λ p, (r, p).

Definition get_self : M DatabricksDataLayer := λ p, (Ok (self p), p).

Definition set_self (d : DatabricksDataLayer) : M unit :=
  λ p, (Ok tt, {| self := d; outside := outside p; trace := trace p; cache := cache p |}).

Definition record (e : event) : M unit :=
  λ p, (Ok tt, {| self := self p; outside := outside p; trace := e :: trace p; cache := cache p |}).

(** A call that leaves the process: it is recorded, then made. *)
Definition call {A} (e : event) (op : world → result A * world) : M A :=
  λ p, let (r, w) := op (outside p) in
       (r, {| self := self p; outside := w; trace := e :: trace p; cache := cache p |}).

(** [self._use_sql_connector = b] *)
Definition set_use_sql_connector (b : bool) : M unit :=
  d <- get_self ;;
  set_self {| _connection := _connection d; _spark := _spark d; _use_sql_connector := Some b |}.

(** [self._connection = c] *)
Definition set_connection (c : connection) : M unit :=
  d <- get_self ;;
  set_self {| _connection := Some c; _spark := _spark d; _use_sql_connector := _use_sql_connector d |}.

(** [self._spark = s] *)
Definition set_spark (s : session) : M unit :=
  d <- get_self ;;
  set_self {| _connection := _connection d; _spark := Some s; _use_sql_connector := _use_sql_connector d |}.

(** [os.environ] *)
Definition environ : Type := gmap string string.

(** [os.getenv(name)] *)
Definition getenv (env : environ) (name : string) : option string := env !! name.

(** [True] for the SQL connector (warehouse), [False] for Databricks Connect
    (cluster). *)
Definition _detect_connection_type (env : environ) : M bool :=
  d <- get_self ;;
  match _use_sql_connector d with
  | Some b => ret b
  | None =>
      if truthy (getenv env "DATABRICKS_RUNTIME_VERSION") then
        set_use_sql_connector false ;; ret false
      else if truthy (getenv env "DATABRICKS_WAREHOUSE_ID")
              || truthy (getenv env "DATABRICKS_HTTP_PATH") then
        set_use_sql_connector true ;; ret true
      else if truthy (getenv env "DATABRICKS_CLUSTER_ID") then
        set_use_sql_connector false ;; ret false
      else
        set_use_sql_connector true ;; ret true
  end.

Definition missing_configuration : string :=
  "Missing configuration. Set environment variables:
  - DATABRICKS_HOST (e.g., xxx.cloud.databricks.com)
  - DATABRICKS_TOKEN (your personal access token)
  - DATABRICKS_WAREHOUSE_ID (SQL Warehouse ID)
    OR DATABRICKS_HTTP_PATH (e.g., /sql/1.0/warehouses/xxx)".

(** The local [host] of [_get_sql_connection]. *)
Definition sql_host (env : environ) : string :=
  replace "http://" "" (replace "https://" "" (default "" (getenv env "DATABRICKS_HOST"))).

(** The local [http_path] of [_get_sql_connection] when it reaches the
    check. *)
Definition sql_http_path (env : environ) : option string :=
  let warehouse_id := getenv env "DATABRICKS_WAREHOUSE_ID" in
  let http_path := getenv env "DATABRICKS_HTTP_PATH" in
  if negb (truthy http_path) && truthy warehouse_id
  then Some ("/sql/1.0/warehouses/" +:+ default "" warehouse_id)
  else http_path.

Definition _get_sql_connection (env : environ) : M connection :=
  let host := sql_host env in
  let token := getenv env "DATABRICKS_TOKEN" in
  let http_path := sql_http_path env in
  if negb (truthy (Some host)) || negb (truthy token) || negb (truthy http_path) then
    raise (ValueError missing_configuration)
  else
    call (Connects host (default "" http_path) (default "" token))
         (sql_connect host (default "" http_path) (default "" token)).

Definition _get_spark_session (env : environ) : M session :=
  if truthy (getenv env "DATABRICKS_RUNTIME_VERSION") then
    call OpensSession getOrCreate
  else
    call OpensSession getOrCreate.

(** The property [connection]. *)
Definition connection_property (env : environ) : M (option connection) :=
  d <- get_self ;;
  (match _connection d with
   | None =>
       b <- _detect_connection_type env ;;
       if b then (c <- _get_sql_connection env ;; set_connection c) else ret tt
   | Some _ => ret tt
   end) ;;
  d' <- get_self ;;
  ret (_connection d').

(** The property [spark]. *)
Definition spark_property (env : environ) : M (option session) :=
  d <- get_self ;;
  (match _spark d with
   | None =>
       b <- _detect_connection_type env ;;
       if negb b then (s <- _get_spark_session env ;; set_spark s) else ret tt
   | Some _ => ret tt
   end) ;;
  d' <- get_self ;;
  ret (_spark d').

Definition _execute_query (env : environ) (query : string) : M DataFrame :=
  record (Executes query) ;;
  b <- _detect_connection_type env ;;
  if b then
    c <- connection_property env ;;
    match c with
    | None => raise (AttributeError "'NoneType' object has no attribute 'cursor'")
    | Some conn =>
        fetched <- call (Fetches query) (cursor_fetch conn query) ;;
        let columns := fetched.1.*1 in
        let data := fetched.2 in
        df <- lift (DataFrame_of_rows data columns) ;;
        df <- lift (_convert_numeric_columns df) ;;
        ret df
    end
  else
    s <- spark_property env ;;
    match s with
    | None => raise (AttributeError "'NoneType' object has no attribute 'sql'")
    | Some sess => call (RunsSpark query) (sql_toPandas sess query)
    end.

Definition TPCH_CATALOG : string := "samples".
Definition TPCH_SCHEMA : string := "tpch".

Definition _get_table_path (table_name : string) : string :=
  TPCH_CATALOG +:+ "." +:+ TPCH_SCHEMA +:+ "." +:+ table_name.

(** The query texts, character for character.  [pretty limit] is the decimal
    form of the integer, as the f-string prints it. *)
Definition get_orders_summary_query : string :=
  "
        SELECT
            DATE_TRUNC('month', o_orderdate) as order_month,
            COUNT(*) as total_orders,
            SUM(o_totalprice) as total_revenue,
            AVG(o_totalprice) as avg_order_value,
            COUNT(DISTINCT o_custkey) as unique_customers
        FROM "
  +:+ _get_table_path "orders"
  +:+ "
        GROUP BY DATE_TRUNC('month', o_orderdate)
        ORDER BY order_month
        ".

Definition get_kpi_metrics_query : string :=
  "
        SELECT
            COUNT(*) as total_orders,
            SUM(o_totalprice) as total_revenue,
            COUNT(DISTINCT o_custkey) as total_customers,
            AVG(o_totalprice) as avg_order_value
        FROM "
  +:+ _get_table_path "orders"
  +:+ "
        ".

Definition get_orders_by_status_query : string :=
  "
        SELECT
            o_orderstatus as status,
            COUNT(*) as order_count,
            SUM(o_totalprice) as total_value
        FROM "
  +:+ _get_table_path "orders"
  +:+ "
        GROUP BY o_orderstatus
        ORDER BY order_count DESC
        ".

Definition get_orders_by_priority_query : string :=
  "
        SELECT
            o_orderpriority as priority,
            COUNT(*) as order_count,
            SUM(o_totalprice) as total_value,
            AVG(o_totalprice) as avg_value
        FROM "
  +:+ _get_table_path "orders"
  +:+ "
        GROUP BY o_orderpriority
        ORDER BY order_count DESC
        ".

Definition get_top_customers_query (limit : Z) : string :=
  "
        SELECT
            c.c_name as customer_name,
            c.c_mktsegment as market_segment,
            n.n_name as nation,
            COUNT(o.o_orderkey) as order_count,
            SUM(o.o_totalprice) as total_spent,
            AVG(o.o_totalprice) as avg_order_value
        FROM "
  +:+ _get_table_path "orders"
  +:+ " o
        JOIN "
  +:+ _get_table_path "customer"
  +:+ " c ON o.o_custkey = c.c_custkey
        JOIN "
  +:+ _get_table_path "nation"
  +:+ " n ON c.c_nationkey = n.n_nationkey
        GROUP BY c.c_name, c.c_mktsegment, n.n_name
        ORDER BY total_spent DESC
        LIMIT "
  +:+ pretty limit
  +:+ "
        ".

Definition get_revenue_by_region_query : string :=
  "
        SELECT
            r.r_name as region,
            n.n_name as nation,
            COUNT(o.o_orderkey) as order_count,
            SUM(o.o_totalprice) as total_revenue
        FROM "
  +:+ _get_table_path "orders"
  +:+ " o
        JOIN "
  +:+ _get_table_path "customer"
  +:+ " c ON o.o_custkey = c.c_custkey
        JOIN "
  +:+ _get_table_path "nation"
  +:+ " n ON c.c_nationkey = n.n_nationkey
        JOIN "
  +:+ _get_table_path "region"
  +:+ " r ON n.n_regionkey = r.r_regionkey
        GROUP BY r.r_name, n.n_name
        ORDER BY total_revenue DESC
        ".

Definition get_market_segment_analysis_query : string :=
  "
        SELECT
            c.c_mktsegment as segment,
            COUNT(DISTINCT c.c_custkey) as customer_count,
            COUNT(o.o_orderkey) as order_count,
            SUM(o.o_totalprice) as total_revenue,
            AVG(o.o_totalprice) as avg_order_value
        FROM "
  +:+ _get_table_path "customer"
  +:+ " c
        LEFT JOIN "
  +:+ _get_table_path "orders"
  +:+ " o ON c.c_custkey = o.o_custkey
        GROUP BY c.c_mktsegment
        ORDER BY total_revenue DESC
        ".

Definition get_top_parts_by_revenue_query (limit : Z) : string :=
  "
        SELECT
            p.p_name as part_name,
            p.p_type as part_type,
            p.p_brand as brand,
            SUM(l.l_extendedprice * (1 - l.l_discount)) as revenue,
            SUM(l.l_quantity) as quantity_sold
        FROM "
  +:+ _get_table_path "lineitem"
  +:+ " l
        JOIN "
  +:+ _get_table_path "part"
  +:+ " p ON l.l_partkey = p.p_partkey
        GROUP BY p.p_name, p.p_type, p.p_brand
        ORDER BY revenue DESC
        LIMIT "
  +:+ pretty limit
  +:+ "
        ".

Definition get_supplier_performance_query (limit : Z) : string :=
  "
        SELECT
            s.s_name as supplier_name,
            n.n_name as nation,
            COUNT(DISTINCT l.l_orderkey) as orders_supplied,
            SUM(l.l_extendedprice) as total_supply_value,
            AVG(l.l_extendedprice) as avg_line_value
        FROM "
  +:+ _get_table_path "lineitem"
  +:+ " l
        JOIN "
  +:+ _get_table_path "supplier"
  +:+ " s ON l.l_suppkey = s.s_suppkey
        JOIN "
  +:+ _get_table_path "nation"
  +:+ " n ON s.s_nationkey = n.n_nationkey
        GROUP BY s.s_name, n.n_name
        ORDER BY total_supply_value DESC
        LIMIT "
  +:+ pretty limit
  +:+ "
        ".

Definition get_monthly_trend_by_segment_query : string :=
  "
        SELECT
            DATE_TRUNC('month', o.o_orderdate) as order_month,
            c.c_mktsegment as segment,
            SUM(o.o_totalprice) as revenue
        FROM "
  +:+ _get_table_path "orders"
  +:+ " o
        JOIN "
  +:+ _get_table_path "customer"
  +:+ " c ON o.o_custkey = c.c_custkey
        GROUP BY DATE_TRUNC('month', o.o_orderdate), c.c_mktsegment
        ORDER BY order_month, segment
        ".

Definition get_order_fulfillment_metrics_query : string :=
  "
        SELECT
            l.l_shipmode as ship_mode,
            COUNT(*) as shipment_count,
            AVG(DATEDIFF(l.l_shipdate, l.l_commitdate)) as avg_days_to_ship,
            SUM(CASE WHEN l.l_shipdate <= l.l_commitdate THEN 1 ELSE 0 END) as on_time_count,
            SUM(CASE WHEN l.l_shipdate > l.l_commitdate THEN 1 ELSE 0 END) as late_count
        FROM "
  +:+ _get_table_path "lineitem"
  +:+ " l
        GROUP BY l.l_shipmode
        ORDER BY shipment_count DESC
        ".

(** The SQL text each cached method sends. *)
Definition query_of (m : metric) : string :=
  match m with
  | orders_summary => get_orders_summary_query
  | kpi_metrics => get_kpi_metrics_query
  | orders_by_status => get_orders_by_status_query
  | orders_by_priority => get_orders_by_priority_query
  | top_customers limit => get_top_customers_query limit
  | revenue_by_region => get_revenue_by_region_query
  | market_segment_analysis => get_market_segment_analysis_query
  | top_parts_by_revenue limit => get_top_parts_by_revenue_query limit
  | supplier_performance limit => get_supplier_performance_query limit
  | monthly_trend_by_segment => get_monthly_trend_by_segment_query
  | order_fulfillment_metrics => get_order_fulfillment_metrics_query
  end.

(** [result.iloc[0].to_dict()] *)
Definition first_row_to_dict (df : DataFrame) : result (list (string * pyobj)) :=
  match nrows df with
  | 0 => Raise (IndexError "single positional indexer is out-of-bounds")
  | S _ => Ok (foldl (λ d kc, dict_set kc.1 (default PyNull (tolist kc.2 !! 0)) d) [] df)
  end.

(** The body of a cached method, under its decorator. *)
Definition metric_body (env : environ) (m : metric) : M value :=
  df <- _execute_query env (query_of m) ;;
  match m with
  | kpi_metrics => d <- lift (first_row_to_dict df) ;; ret (Mapping d)
  | _ => ret (Frame df)
  end.

Definition execute_custom_query (env : environ) (query : string) : M DataFrame :=
  _execute_query env query.

Definition health_check (env : environ) : M bool :=
  λ p, match _execute_query env "SELECT 1 as health" p with
       | (Ok _, p') => (Ok true, p')
       | (Raise _, p') => (Ok false, p')              (* except Exception *)
       end.

Definition get_connection_info (env : environ) : M string :=
  b <- _detect_connection_type env ;;
  if b then ret "SQL Warehouse (Serverless)"
  else ret "Classic Cluster (Databricks Connect)".

(** *** The result cache *)

(** Modelled from the spec: the result cache behind [@st.cache_data(ttl=...)].
    The decorator is Streamlit's; the repository only applies it.  Following
    section 4.4 of the specification: the entry is looked up under the exact
    key; an entry younger than the time to live is returned and nothing is
    executed; otherwise [compute] runs and its result is stored with a fresh
    timestamp.  Following section 7, a [compute] that raises leaves no new
    entry.  [now] is the clock reading at the call, in seconds. *)
Definition getOrCompute (key : metric) (ttlSeconds : Z) (compute : M value) (now : Z)
    : M value :=
  λ p,
    let miss :=
      match compute p with
      | (Ok v, p') =>
          (Ok v, {| self := self p'; outside := outside p'; trace := trace p';
                    cache := <[key := {| cached := v; stored_at := now |}]> (cache p') |})
      | (Raise e, p') => (Raise e, p')
      end in
    match cache p !! key with
    | Some e => if bool_decide (now - stored_at e < ttlSeconds)%Z then (Ok (cached e), p) else miss
    | None => miss
    end.

(** Modelled from the spec: [clearAll()], the [st.cache_data.clear()] of the
    presentation layer: every entry is dropped. *)
Definition clearAll : M unit :=
  λ p, (Ok tt, {| self := self p; outside := outside p; trace := trace p; cache := ∅ |}).

(** A cached method as the presentation layer calls it:
    [@st.cache_data(ttl=3600, show_spinner=False)] around the body.  The
    leading underscore of [_self] keeps the data layer out of the key, which
    is the method and its arguments. *)
Definition get_metric (env : environ) (now : Z) (m : metric) : M value :=
  getOrCompute m 3600 (metric_body env m) now.

(** The calls the presentation layer can make on the data layer. *)
Inductive request : Type :=
| DetectConnectionType
| GetConnection
| GetSpark
| GetMetric (now : Z) (m : metric)
| ExecuteCustomQuery (query : string)
| HealthCheck
| GetConnectionInfo
| ClearCache.

(** The process after a request, whatever it returned or raised. *)
Definition after (env : environ) (r : request) (p : process) : process :=
  match r with
  | DetectConnectionType => (_detect_connection_type env p).2
  | GetConnection => (connection_property env p).2
  | GetSpark => (spark_property env p).2
  | GetMetric now m => (get_metric env now m p).2
  | ExecuteCustomQuery query => (execute_custom_query env query p).2
  | HealthCheck => (health_check env p).2
  | GetConnectionInfo => (get_connection_info env p).2
  | ClearCache => (clearAll p).2
  end.

(** The process after a run of requests, each made under the environment of
    its moment. *)
Definition after_all (rs : list (environ * request)) (p : process) : process :=
  foldl (λ q er, after er.1 er.2 q) p rs.

Definition is_execution (e : event) : bool :=
  match e with
  | Executes _ => true
  | _ => false
  end.

(** Events of the SQL connector and of Databricks Connect. *)
Definition is_sql_event (e : event) : bool :=
  match e with
  | Connects _ _ _ | Fetches _ => true
  | _ => false
  end.

Definition is_spark_event (e : event) : bool :=
  match e with
  | OpensSession | RunsSpark _ => true
  | _ => false
  end.

(** The connection mode a return value of [_detect_connection_type] stands
    for. *)
Inductive ConnectionMode : Type :=
| WarehouseSQL
| ManagedSession.

Definition mode_of (use_sql_connector : bool) : ConnectionMode :=
  if use_sql_connector then WarehouseSQL else ManagedSession.

(** Mode resolution in the words of the specification (section 4.1): the
    first match wins. *)
Definition resolveMode (managed_marker warehouse_id wire_path cluster_id : bool)
    : ConnectionMode :=
  if managed_marker then ManagedSession
  else if warehouse_id || wire_path then WarehouseSQL
  else if cluster_id then ManagedSession
  else WarehouseSQL.

(** An environment signal is present when the code reads it as true. *)
Definition present (env : environ) (name : string) : bool := truthy (getenv env name).

(** The method [m] keeps the property [I] of the process, whether it returns
    or raises. *)
Definition keeps {A} (I : process → Prop) (m : M A) : Prop :=
  ∀ p, I p → I (m p).2.

(** The stored mode is [b]. *)
Definition pinned (b : bool) (p : process) : Prop :=
  _use_sql_connector (self p) = Some b.

(** How often [_execute_query] has been entered. *)
Definition executions (p : process) : nat :=
  length (List.filter is_execution (trace p)).

End Layer.

(** ** A small instance of the interface

    Integers for numbers, [Decimal] and [date] objects, and a reader of
    decimal integer literals.  It runs the definitions on concrete frames. *)
Module Sample.
Inductive sample_obj : Type :=
| Decimal (v : Z)
| Date (day : Z).

#[export] Instance values : PyValues := {| num := Z; obj := sample_obj |}.

Definition digit (a : Ascii.ascii) : option Z :=
  let n := Ascii.nat_of_ascii a in
  if (48 <=? n)%nat && (n <=? 57)%nat then Some (Z.of_nat (n - 48)) else None.

Fixpoint digits (s : string) (acc : Z) : option Z :=
  match s with
  | EmptyString => Some acc
  | String a rest =>
      match digit a with
      | Some d => digits rest (10 * acc + d)
      | None => None
      end
  end.

Definition read_int (s : string) : option Z :=
  match s with
  | EmptyString => None
  | String "-"%char EmptyString => None
  | String "-"%char rest => Z.opp <$> digits rest 0
  | _ => digits s 0
  end.

Definition as_number (c : pyobj) : option (option Z) :=
  match c with
  | PyNull => Some None
  | PyNum v => Some (Some v)
  | _ => None
  end.

Fixpoint as_numbers (l : list pyobj) : option (list (option Z)) :=
  match l with
  | [] => Some []
  | c :: l' =>
      match as_number c, as_numbers l' with
      | Some v, Some cells => Some (v :: cells)
      | _, _ => None
      end
  end.

(** An empty list makes an empty float64 column; numbers and missing values
    with at least one number make a numeric column; anything else stays an
    object column. *)
Definition infer (l : list pyobj) : column :=
  match l with
  | [] => NumericCol []
  | _ :: _ =>
      match as_numbers l with
      | Some cells => if isna_all cells then ObjectCol l else NumericCol cells
      | None => ObjectCol l
      end
  end.

#[export] Instance pandas : Pandas := {|
  parse_str := read_int;
  parse_obj := λ o, match o with Decimal v => Some v | Date _ => None end;
  from_list := infer;
  to_numeric_raises := λ _, None
|}.

(** The outside world of the sample: a warehouse and a cluster that answer
    every query with the same four rows, and count the calls they get. *)
Definition sample_rows : list (list pyobj) :=
  [ [PyStr "10"; PyStr "a"]; [PyStr "20"; PyStr "b"];
    [PyStr "bad"; PyStr "c"]; [PyStr "30"; PyStr "d"] ].

Definition sample_frame : DataFrame :=
  [ ("amount", ObjectCol [PyStr "10"; PyStr "20"; PyStr "bad"; PyStr "30"]);
    ("label", ObjectCol [PyStr "a"; PyStr "b"; PyStr "c"; PyStr "d"]) ].

#[export] Instance databricks : Databricks := {|
  world := nat;
  connection := unit;
  session := unit;
  sql_connect := λ _ _ _ w, (Ok tt, S w);
  cursor_fetch := λ _ _ w, (Ok ([("amount", "string"); ("label", "string")], sample_rows), S w);
  getOrCreate := λ w, (Ok tt, S w);
  sql_toPandas := λ _ _ w, (Ok sample_frame, S w)
|}.

(** A fresh process: the data layer as [__init__] leaves it, nothing done
    yet, nothing cached. *)
Definition fresh : process :=
  {| self := __init__; outside := 0; trace := []; cache := ∅ |}.

(** A local set-up for a SQL warehouse. *)
Definition warehouse_env : environ :=
  {[ "DATABRICKS_HOST" := "https://dbc-1.cloud.databricks.com";
     "DATABRICKS_TOKEN" := "dapi0";
     "DATABRICKS_WAREHOUSE_ID" := "abc123" ]}.

(** A local set-up for a classic cluster. *)
Definition cluster_env : environ :=
  {[ "DATABRICKS_HOST" := "https://dbc-1.cloud.databricks.com";
     "DATABRICKS_TOKEN" := "dapi0";
     "DATABRICKS_CLUSTER_ID" := "0101-cluster" ]}.

(** Only a token is set. *)
Definition token_only_env : environ := {[ "DATABRICKS_TOKEN" := "dapi0" ]}.

(** Two result columns under one name, as [SELECT 1 AS a, 2 AS a] gives. *)
Definition repeated_name_frame : DataFrame :=
  [ ("a", NumericCol [Some 1%Z]); ("a", NumericCol [Some 2%Z]) ].



(** A column of missing values only. *)
Definition missing_frame : DataFrame := [ ("x", ObjectCol [PyNull; PyNull]) ].

(** A warehouse whose queries return no row. *)
Definition empty_warehouse : Databricks := {|
  world := nat;
  connection := unit;
  session := unit;
  sql_connect := λ _ _ _ w, (Ok tt, S w);
  cursor_fetch := λ _ _ w, (Ok ([("total_orders", "bigint")], []), S w);
  getOrCreate := λ w, (Ok tt, S w);
  sql_toPandas := λ _ _ w, (Ok [("total_orders", ObjectCol [])], S w)
|}.

(** A fresh process in front of the empty warehouse. *)
Definition fresh_empty : @process values empty_warehouse :=
  {| self := @__init__ values empty_warehouse; outside := 0%nat; trace := []; cache := ∅ |}.

(** The process after a first access to the connection. *)
Definition connected : process := (connection_property warehouse_env fresh).2.

(** The process after a first access to the Spark session. *)
Definition in_session : process := (spark_property cluster_env fresh).2.

(** What the sample warehouse serves for any query, normalised. *)
Definition served : value :=
  Frame [ ("amount", NumericCol [Some 10%Z; Some 20%Z; None; Some 30%Z]);
          ("label", ObjectCol [PyStr "a"; PyStr "b"; PyStr "c"; PyStr "d"]) ].
End Sample.

Import Sample.

(** * Facts *)

(** ** Loops and dictionaries *)

Lemma for_each_app {A S} (body : S → A → result S) xs ys acc :
  for_each body (xs ++ ys) acc = for_each body xs acc ≫= for_each body ys.
Proof.
  revert acc. induction xs as [|x xs IH]; intros acc; simpl; [done|].
  destruct (body acc x) as [acc'|e]; simpl; [apply IH | done].
Qed.

Lemma for_each_mono {A S} (body1 body2 : S → A → result S) xs acc out :
  (∀ s x s', body1 s x = Ok s' → body2 s x = Ok s') →
  for_each body1 xs acc = Ok out → for_each body2 xs acc = Ok out.
Proof.
  intros Hbody. revert acc. induction xs as [|x xs IH]; intros acc; simpl; [done|].
  destruct (body1 acc x) as [acc'|e] eqn:Hx; simpl; [|done].
  rewrite (Hbody _ _ _ Hx). simpl. apply IH.
Qed.

Lemma dict_set_fresh {V} (k : string) (v : V) d :
  k ∉ d.*1 → dict_set k v d = d ++ [(k, v)].
Proof.
  induction d as [|[k' v'] d IH]; simpl; [done|].
  rewrite not_elem_of_cons. intros [Hne Hd].
  rewrite decide_False by done. by rewrite IH.
Qed.

Lemma dict_set_keys {V} (k : string) (v : V) d :
  (dict_set k v d).*1 = if decide (k ∈ d.*1) then d.*1 else d.*1 ++ [k].
Proof.
  induction d as [|[k' v'] d IH]; [done|].
  cbn [dict_set]. rewrite fmap_cons. cbn [fst].
  destruct (decide (k = k')) as [->|Hne].
  - rewrite decide_True by apply list_elem_of_here. done.
  - rewrite fmap_cons, IH. cbn [fst].
    destruct (decide (k ∈ d.*1)) as [Hin|Hnin].
    + rewrite decide_True by (by apply list_elem_of_further). done.
    + rewrite decide_False; [done|]. by apply not_elem_of_cons.
Qed.

Lemma dict_set_NoDup {V} (k : string) (v : V) d :
  NoDup d.*1 → NoDup (dict_set k v d).*1.
Proof.
  intros Hd. rewrite dict_set_keys. case_decide; [done|].
  apply NoDup_app. split_and!; [done | | apply NoDup_singleton].
  intros x Hx. rewrite list_elem_of_singleton. by intros ->.
Qed.

Section FrameFacts.
Context `{PyValues}.

Lemma to_dict_list_NoDup (df : DataFrame) : NoDup (to_dict_list df).*1.
Proof.
  unfold to_dict_list.
  assert (Hgen : ∀ d : list (string * list pyobj), NoDup d.*1 →
    NoDup (foldl (λ d kc, dict_set kc.1 (tolist kc.2) d) d df).*1).
  { induction df as [|kc df IH]; intros d Hd; simpl; [done|].
    apply IH. by apply dict_set_NoDup. }
  apply Hgen. constructor.
Qed.

Lemma to_dict_list_distinct (df : DataFrame) :
  NoDup (columns df) →
  to_dict_list df = (λ kc : string * column, (kc.1, tolist kc.2)) <$> df.
Proof.
  unfold to_dict_list, columns.
  assert (Hgen : ∀ d : list (string * list pyobj),
    NoDup (d.*1 ++ df.*1) →
    foldl (λ d kc, dict_set kc.1 (tolist kc.2) d) d df
    = d ++ ((λ kc : string * column, (kc.1, tolist kc.2)) <$> df)).
  { induction df as [|[k c] df IH]; intros d Hd; simpl.
    - by rewrite app_nil_r.
    - rewrite dict_set_fresh.
      + rewrite IH.
        * by rewrite <- app_assoc.
        * rewrite fmap_app. simpl. rewrite <- app_assoc. exact Hd.
      + apply NoDup_app in Hd as (_ & Hd & _). intros Hin.
        apply (Hd k Hin). simpl. apply list_elem_of_here. }
  intros Hdf. apply (Hgen []). exact Hdf.
Qed.

Lemma filter_name_absent (df : DataFrame) (col : string) :
  col ∉ columns df → filter (λ kc : string * column, kc.1 = col) df = [].
Proof.
  unfold columns. induction df as [|[k c] df IH]; [done|].
  rewrite fmap_cons, not_elem_of_cons. cbn [fst]. intros [Hne Hd].
  rewrite filter_cons_False by (cbn; congruence). by apply IH.
Qed.

Lemma setitem_absent (df : DataFrame) (col : string) (c : column) :
  col ∉ columns df → setitem df col c = df.
Proof.
  unfold columns, setitem. induction df as [|[k c0] df IH]; [done|].
  rewrite !fmap_cons, not_elem_of_cons. cbn [fst]. intros [Hne Hd].
  rewrite decide_False by congruence. f_equal. by apply IH.
Qed.

Lemma getitem_middle (before after : DataFrame) (col : string) (c : column) :
  col ∉ columns before → col ∉ columns after →
  getitem (before ++ (col, c) :: after) col = Ok c.
Proof.
  intros Hb Ha. unfold getitem.
  rewrite filter_app, filter_cons_True by done.
  by rewrite !filter_name_absent.
Qed.

Lemma setitem_middle (before after : DataFrame) (col : string) (c c' : column) :
  col ∉ columns before → col ∉ columns after →
  setitem (before ++ (col, c) :: after) col c' = before ++ (col, c') :: after.
Proof.
  intros Hb Ha.
  transitivity (setitem before col c' ++ (col, c') :: setitem after col c').
  - unfold setitem. rewrite fmap_app, fmap_cons. cbn [fst].
    by rewrite decide_True.
  - by rewrite !setitem_absent.
Qed.

Lemma columns_map_columns (f : column → column) (df : DataFrame) :
  columns (map_columns f df) = columns df.
Proof.
  unfold columns, map_columns. rewrite <- list_fmap_compose. done.
Qed.

Lemma map_columns_lookup (f : column → column) (df : DataFrame) i name c :
  df !! i = Some (name, c) → map_columns f df !! i = Some (name, f c).
Proof. intros Hi. unfold map_columns. by rewrite list_lookup_fmap, Hi. Qed.

Lemma map_columns_app (f : column → column) (df1 df2 : DataFrame) :
  map_columns f (df1 ++ df2) = map_columns f df1 ++ map_columns f df2.
Proof. apply fmap_app. Qed.

(** A loop over the names of a frame whose names are distinct, each turn
    replacing the column it looks at, is a map over the columns. *)
Lemma for_each_columns (P : column → Prop) (f : column → column)
    (body : DataFrame → string → result DataFrame) :
  (∀ df col c, P c → getitem df col = Ok c → body df col = Ok (setitem df col (f c))) →
  ∀ df, NoDup (columns df) → Forall (λ kc, P kc.2) df →
    for_each body (columns df) df = Ok (map_columns f df).
Proof.
  intros Hbody.
  assert (Hgen : ∀ todo before : DataFrame,
    NoDup (columns before ++ columns todo) → Forall (λ kc, P kc.2) todo →
    for_each body (columns todo) (map_columns f before ++ todo)
    = Ok (map_columns f before ++ map_columns f todo)).
  { induction todo as [|[k c] todo IH]; intros before Hnd HP.
    - done.
    - apply Forall_cons in HP as [Hc HP].
      apply NoDup_app in Hnd as (Hb & Hbt & Ht).
      change (columns ((k, c) :: todo)) with (k :: columns todo) in *.
      apply NoDup_cons in Ht as [Hk Ht].
      assert (Hkb : k ∉ columns before).
      { intros Hin. apply (Hbt k Hin). apply list_elem_of_here. }
      cbn [for_each].
      rewrite (Hbody _ k c Hc)
        by (apply getitem_middle; [by rewrite columns_map_columns | done]).
      cbn [mbind result_bind rbind].
      rewrite setitem_middle; [| by rewrite columns_map_columns | done].
      assert (Heq : ∀ rest : DataFrame,
        map_columns f before ++ (k, f c) :: rest
        = map_columns f (before ++ [(k, c)]) ++ rest).
      { intros rest. rewrite map_columns_app, <- app_assoc. done. }
      rewrite Heq, IH; [| |done].
      + rewrite <- Heq. done.
      + unfold columns. rewrite fmap_app, <- app_assoc. cbn.
        apply NoDup_app. split_and!; [done|done|]. by apply NoDup_cons. }
  intros df Hnd HP. apply (Hgen df []); done.
Qed.

End FrameFacts.

(** ** The numeric normaliser *)

Section NormalizerFacts.
Context `{Pandas}.

Lemma setitem_same (df : DataFrame) (col : string) (c : column) :
  getitem df col = Ok c → setitem df col c = df.
Proof.
  intros Hget.
  assert (Hall : ∀ kc, kc ∈ df → kc.1 = col → kc.2 = c).
  { intros kc Hin Hcol. unfold getitem in Hget.
    assert (Hf : kc ∈ filter (λ kc : string * column, kc.1 = col) df)
      by (by apply list_elem_of_filter).
    destruct (filter _ df) as [|[k0 c0] [|]]; [done| |done].
    apply list_elem_of_singleton in Hf as ->. by injection Hget. }
  clear Hget. unfold setitem. induction df as [|[k c0] df IH]; [done|].
  rewrite fmap_cons. cbn [fst]. f_equal.
  - case_decide as Hk; [|done].
    by rewrite <- (Hall (k, c0) (list_elem_of_here _ _) Hk).
  - apply IH. intros kc Hin. apply Hall. by apply list_elem_of_further.
Qed.

Lemma _convert_numeric_column_spec (df : DataFrame) (col : string) (c : column) :
  getitem df col = Ok c →
  _convert_numeric_column df col = Ok (setitem df col (converted_column c)).
Proof.
  intros Hget. unfold _convert_numeric_column. rewrite Hget.
  cbn [mbind result_bind rbind].
  destruct c as [l|l|l]; cbn [converted_column]; try by rewrite setitem_same.
  unfold to_numeric. destruct (to_numeric_raises l); [by rewrite setitem_same|].
  destruct (isna_all (parse <$> l)); cbn [negb]; [by rewrite setitem_same | done].
Qed.

Lemma ensure_numeric_column_spec (df : DataFrame) (col : string) (c : column) :
  to_numeric_returns c → getitem df col = Ok c →
  ensure_numeric_column df col = Ok (setitem df col (converted_column c)).
Proof.
  intros Hret Hget. unfold ensure_numeric_column. rewrite Hget.
  cbn [mbind result_bind rbind].
  destruct c as [l|l|l]; cbn [converted_column]; try by rewrite setitem_same.
  unfold to_numeric. cbn in Hret. rewrite Hret. cbn [mbind result_bind rbind].
  destruct (isna_all (parse <$> l)); cbn [negb]; [by rewrite setitem_same | done].
Qed.

Lemma ensure_numeric_column_Ok (df out : DataFrame) (col : string) :
  ensure_numeric_column df col = Ok out → _convert_numeric_column df col = Ok out.
Proof.
  unfold ensure_numeric_column, _convert_numeric_column.
  destruct (getitem df col) as [c|e]; cbn [mbind result_bind rbind]; [|done].
  destruct c as [l|l|l]; try done.
  destruct (to_numeric l) as [converted|e]; cbn [mbind result_bind rbind]; done.
Qed.

Lemma columns_DataFrame_of_dict (d : list (string * list pyobj)) :
  columns (DataFrame_of_dict d) = d.*1.
Proof.
  unfold columns, DataFrame_of_dict. rewrite <- list_fmap_compose. done.
Qed.

Lemma rebuilt_NoDup (df : DataFrame) : NoDup (columns (rebuilt df)).
Proof.
  unfold rebuilt. rewrite columns_DataFrame_of_dict. apply to_dict_list_NoDup.
Qed.

Lemma rebuilt_distinct (df : DataFrame) :
  NoDup (columns df) →
  rebuilt df = map_columns (λ c, from_list (tolist c)) df.
Proof.
  intros Hnd. unfold rebuilt, DataFrame_of_dict, map_columns.
  rewrite to_dict_list_distinct by done. rewrite <- list_fmap_compose. done.
Qed.

Lemma map_columns_ext (f g : column → column) (df : DataFrame) :
  Forall (λ kc, f kc.2 = g kc.2) df → map_columns f df = map_columns g df.
Proof.
  intros Hall. unfold map_columns. apply list_fmap_ext.
  intros i kc Hi. rewrite Forall_forall in Hall.
  by rewrite (Hall kc (list_elem_of_lookup_2 _ _ _ Hi)).
Qed.

Lemma map_columns_id (df : DataFrame) : map_columns id df = df.
Proof.
  unfold map_columns. rewrite <- (list_fmap_id df) at 2.
  apply list_fmap_ext. by intros i [k c] _.
Qed.

Lemma map_columns_compose (f g : column → column) (df : DataFrame) :
  map_columns f (map_columns g df) = map_columns (f ∘ g) df.
Proof. unfold map_columns. rewrite <- list_fmap_compose. done. Qed.

Lemma rebuilt_as_built (df : DataFrame) :
  NoDup (columns df) → Forall (λ kc, as_built kc.2) df → rebuilt df = df.
Proof.
  intros Hnd Hall. rewrite rebuilt_distinct by done.
  rewrite <- (map_columns_id df) at 2. by apply map_columns_ext.
Qed.

(** The data-layer normaliser always returns: it maps the rebuilt frame
    column by column. *)
Lemma _convert_numeric_columns_spec (df : DataFrame) :
  _convert_numeric_columns df = Ok (map_columns converted_column (rebuilt df)).
Proof.
  unfold _convert_numeric_columns. fold (rebuilt df).
  apply (for_each_columns (λ _, True)).
  - intros g col c _. apply _convert_numeric_column_spec.
  - apply rebuilt_NoDup.
  - apply Forall_forall. done.
Qed.

Lemma ensure_numeric_columns_spec (df : DataFrame) :
  NoDup (columns df) → Forall (λ kc, to_numeric_returns kc.2) df →
  ensure_numeric_columns df = Ok (map_columns converted_column df).
Proof.
  intros Hnd Hret. unfold ensure_numeric_columns.
  apply (for_each_columns to_numeric_returns); [|done|done].
  intros g col c. apply ensure_numeric_column_spec.
Qed.

Lemma isna_all_false (l : list (option num)) :
  isna_all l = false ↔ ∃ v, Some v ∈ l.
Proof.
  unfold isna_all. induction l as [|[v|] l IH]; cbn [forallb].
  - split; [done|]. intros [v Hv]. by apply elem_of_nil in Hv.
  - split; [|done]. intros _. exists v. apply list_elem_of_here.
  - cbn [andb]. rewrite IH. split; intros [v Hv]; exists v.
    + by apply list_elem_of_further.
    + apply elem_of_cons in Hv as [?|?]; done.
Qed.

Lemma isna_all_parse_false (l : list pyobj) :
  isna_all (parse <$> l) = false ↔ ∃ x, x ∈ l ∧ is_Some (parse x).
Proof.
  rewrite isna_all_false. split.
  - intros [v Hv]. apply list_elem_of_fmap in Hv as (x & Hx & Hin).
    exists x. split; [done|]. by exists v.
  - intros (x & Hin & v & Hv). exists v. rewrite <- Hv.
    by apply list_elem_of_fmap_2.
Qed.


Lemma parse_num_cell (l : list (option num)) : parse <$> (num_cell <$> l) = l.
Proof.
  rewrite <- list_fmap_compose. rewrite <- (list_fmap_id l) at 2.
  apply list_fmap_ext. by intros i [v|] _.
Qed.

Lemma converted_column_idemp (c : column) :
  converted_column (converted_column c) = converted_column c.
Proof.
  destruct c as [l|l|l]; try done. cbn [converted_column].
  destruct (to_numeric_raises l) eqn:Hr; cbn [converted_column]; [by rewrite Hr|].
  destruct (isna_all (parse <$> l)) eqn:Hna; cbn [converted_column]; [|done].
  by rewrite Hr, Hna.
Qed.

Lemma length_tolist_converted_column (c : column) :
  length (tolist (converted_column c)) = length (tolist c).
Proof.
  destruct c as [l|l|l]; try done. cbn [converted_column].
  destruct (to_numeric_raises l); [done|].
  destruct (isna_all (parse <$> l)); [done|].
  cbn [tolist]. by rewrite !length_fmap.
Qed.

End NormalizerFacts.

Section NormalizerLaws.
Context `{PandasLaws}.

Lemma from_list_as_built (l : list pyobj) : as_built (from_list l).
Proof. unfold as_built. by rewrite tolist_from_list. Qed.

Lemma converted_column_as_built (c : column) :
  as_built c → as_built (converted_column c).
Proof.
  intros Hc. destruct c as [l|l|l]; try done. cbn [converted_column].
  destruct (to_numeric_raises l); [done|].
  destruct (isna_all (parse <$> l)) eqn:Hna; [done|].
  unfold as_built. cbn [tolist]. by apply from_list_numbers.
Qed.

Lemma rebuilt_all_as_built (df : DataFrame) :
  Forall (λ kc, as_built kc.2) (rebuilt df).
Proof.
  unfold rebuilt, DataFrame_of_dict. apply Forall_fmap, Forall_forall.
  intros kl _. apply from_list_as_built.
Qed.

(** The values of a column after the rebuild and one turn of the loop: the
    values it had, or their numeric parse when the loop converted it. *)
Lemma tolist_converted_from_list (l : list pyobj) :
  tolist (converted_column (from_list l)) = l ∨
  (isna_all (parse <$> l) = false ∧
   converted_column (from_list l) = NumericCol (parse <$> l)).
Proof.
  pose proof (tolist_from_list l) as Hl.
  destruct (from_list l) as [l0|l0|l0]; cbn [tolist] in Hl; subst;
    cbn [converted_column]; try (by left).
  destruct (to_numeric_raises l); [by left|].
  destruct (isna_all (parse <$> l)) eqn:Hna; [by left | by right].
Qed.

End NormalizerLaws.

(** The sample satisfies the laws. *)
Lemma sample_as_numbers_cells (l : list pyobj) cells :
  as_numbers l = Some cells → num_cell <$> cells = l.
Proof.
  revert cells. induction l as [|c l IH]; intros cells; cbn [as_numbers].
  - by intros [= <-].
  - destruct (as_number c) as [v|] eqn:Hc; [|done].
    destruct (as_numbers l) as [cells'|]; [|done].
    intros [= <-]. rewrite fmap_cons, (IH cells') by done.
    destruct c as [|v'| |]; cbn in Hc; by simplify_eq.
Qed.

Lemma sample_as_numbers_num_cell (cells : list (option Z)) :
  as_numbers (num_cell <$> cells) = Some cells.
Proof.
  induction cells as [|v cells IH]; [done|].
  rewrite fmap_cons. cbn [as_numbers]. rewrite IH. by destruct v.
Qed.

Lemma sample_laws : @PandasLaws values pandas.
Proof.
  split.
  - intros l. cbn [from_list pandas]. unfold infer.
    destruct l as [|c l]; [done|].
    destruct (as_numbers (c :: l)) as [cells|] eqn:Hl; [|done].
    destruct (isna_all _); [done|]. by apply sample_as_numbers_cells.
  - intros l Hna. cbn [from_list pandas]. unfold infer.
    destruct l as [|v l]; [done|].
    rewrite fmap_cons, <- (fmap_cons num_cell), sample_as_numbers_num_cell.
    by rewrite Hna.
Qed.





(** The two columns of the specification: ["10", "20", "bad", "30"] becomes
    [10, 20, null, 30], and a column of text stays as it is. *)
Example normalizer_partly_numeric_column :
  _convert_numeric_columns
    [("amount", ObjectCol [PyStr "10"; PyStr "20"; PyStr "bad"; PyStr "30"])]
  = Ok [("amount", NumericCol [Some 10%Z; Some 20%Z; None; Some 30%Z])].
Proof. reflexivity. Qed.

Example normalizer_text_column :
  _convert_numeric_columns [("label", ObjectCol [PyStr "a"; PyStr "b"; PyStr "c"])]
  = Ok [("label", ObjectCol [PyStr "a"; PyStr "b"; PyStr "c"])].
Proof. reflexivity. Qed.

(** A column of missing values stays as it is. *)
Example normalizer_missing_column :
  _convert_numeric_columns missing_frame = Ok missing_frame ∧
  ensure_numeric_columns missing_frame = Ok missing_frame.
Proof. split; reflexivity. Qed.

(** C6.  The normaliser is idempotent: normalising a normalised frame gives
    the same frame. *)
Theorem normalizer_idempotent `{PandasLaws} (df : DataFrame) :
  _convert_numeric_columns df ≫= _convert_numeric_columns
  = _convert_numeric_columns df.
Proof.
  rewrite (_convert_numeric_columns_spec df).
  cbn [mbind result_bind rbind].
  rewrite _convert_numeric_columns_spec. f_equal.
  set (g := rebuilt df).
  assert (Hnd : NoDup (columns (map_columns converted_column g)))
    by (rewrite columns_map_columns; apply rebuilt_NoDup).
  assert (Hbuilt : Forall (λ kc, as_built kc.2) (map_columns converted_column g)).
  { unfold map_columns. apply Forall_fmap. cbn.
    eapply Forall_impl; [apply rebuilt_all_as_built|].
    intros kc. apply converted_column_as_built. }
  rewrite (rebuilt_as_built _ Hnd Hbuilt), map_columns_compose.
  apply map_columns_ext, Forall_forall. intros kc _. cbn.
  apply converted_column_idemp.
Qed.

Lemma normalizer_idempotent_witness :
  @PandasLaws values pandas ∧
  _convert_numeric_columns sample_frame ≫= _convert_numeric_columns
  = _convert_numeric_columns sample_frame.
Proof.
  split; [exact sample_laws|].
  exact (@normalizer_idempotent _ _ sample_laws sample_frame).
Defined.

(** For every frame whose column names are pairwise distinct, the normaliser
    returns a frame with the same names in the same order and as many rows,
    in which every column it does not convert (a native numeric column, an
    object column none of whose values parses as a number) has the values it
    had. *)
Lemma normalizer_preserves_distinctly_named_frame `{PandasLaws} (df : DataFrame) :
  NoDup (columns df) →
  ∃ out, _convert_numeric_columns df = Ok out ∧ frame_preserved df out.
Proof.
  intros Hnd.
  exists (map_columns converted_column (rebuilt df)).
  split; [apply _convert_numeric_columns_spec|].
  rewrite rebuilt_distinct by done. rewrite map_columns_compose.
  set (f := converted_column ∘ (λ c, from_list (tolist c))).
  assert (Hcols : columns (map_columns f df) = columns df)
    by apply columns_map_columns.
  unfold frame_preserved. split_and!.
  - intros name. by rewrite Hcols.
  - exact Hcols.
  - destruct df as [|[k c] df]; [done|]. cbn [map_columns fmap list_fmap nrows fst snd].
    unfold f. cbn. rewrite length_tolist_converted_column.
    by rewrite tolist_from_list.
  - intros i name c Hi Hkeep. exists (f c).
    split; [by apply map_columns_lookup|].
    unfold f. cbn.
    destruct (tolist_converted_from_list (tolist c)) as [Hsame|[Hna Hconv]]; [done|].
    rewrite Hconv. cbn [tolist].
    destruct c as [l|l|l]; cbn [tolist not_converted] in *.
    + by rewrite parse_num_cell.
    + apply isna_all_parse_false in Hna as (x & Hin & v & Hv).
      rewrite (Hkeep x Hin) in Hv. discriminate.
    + done.
Qed.

Lemma normalizer_preserves_distinctly_named_frame_witness :
  @PandasLaws values pandas ∧
  NoDup (columns sample_frame) ∧
  ∃ out, _convert_numeric_columns sample_frame = Ok out ∧
         frame_preserved sample_frame out.
Proof.
  assert (Hnd : NoDup (columns sample_frame)).
  { cbn. repeat constructor; rewrite ?elem_of_cons, ?elem_of_nil; intros Hin;
      decompose [or] Hin; done. }
  split_and!; [exact sample_laws | exact Hnd |].
  exact (@normalizer_preserves_distinctly_named_frame _ _ sample_laws sample_frame Hnd).
Defined.

(** C9.  The normaliser is to keep the column names, their order, the row
    count and the values of every column it does not convert.  On the frame
    the constructor builds from the one row [(1, 2)] under the names [a], [a],
    it does not: of the two numeric columns only the second is left, so the
    names are no longer the input's and the values of the first column, which
    is not one the normaliser converts, are gone. *)
Theorem normalizer_collapses_repeated_names :
  DataFrame_of_rows [[PyNum 1%Z; PyNum 2%Z]] ["a"; "a"] = Ok repeated_name_frame ∧
  _convert_numeric_columns repeated_name_frame = Ok [("a", NumericCol [Some 2%Z])] ∧
  repeated_name_frame !! 0%nat = Some ("a", NumericCol [Some 1%Z]) ∧
  not_converted (@NumericCol values [Some 1%Z]) ∧
  ¬ frame_preserved repeated_name_frame [("a", NumericCol [Some 2%Z])].
Proof.
  split_and!; [reflexivity | reflexivity | reflexivity | exact I |].
  intros (_ & Hcols & _). discriminate Hcols.
Qed.





(** Where [pd.to_numeric] raises, the data layer keeps the column and
    [ensure_numeric_columns] lets the exception through. *)
Lemma normalizers_differ_when_to_numeric_raises `{Pandas}
    (name : string) (cells : list pyobj) (e : exn) :
  to_numeric_raises cells = Some e →
  as_built (ObjectCol cells) →
  _convert_numeric_columns [(name, ObjectCol cells)] = Ok [(name, ObjectCol cells)] ∧
  ensure_numeric_columns [(name, ObjectCol cells)] = Raise e.
Proof.
  intros Hr Hbuilt. split.
  - rewrite _convert_numeric_columns_spec, rebuilt_as_built.
    + cbn. by rewrite Hr.
    + cbn. apply NoDup_singleton.
    + by constructor.
  - unfold ensure_numeric_columns, columns. cbn [fmap list_fmap fst for_each].
    unfold ensure_numeric_column, getitem.
    rewrite filter_cons_True by done. rewrite filter_nil.
    cbn [mbind result_bind rbind]. unfold to_numeric. by rewrite Hr.
Qed.

(** Whenever [ensure_numeric_columns] returns on such a frame, the data-layer
    normaliser returns the same; it also returns where the other raises. *)
Lemma ensure_numeric_columns_refines `{Pandas} (df out : DataFrame) :
  NoDup (columns df) →
  Forall (λ kc, as_built kc.2) df →
  ensure_numeric_columns df = Ok out → _convert_numeric_columns df = Ok out.
Proof.
  intros Hnd Hbuilt. unfold ensure_numeric_columns, _convert_numeric_columns.
  fold (rebuilt df). rewrite rebuilt_as_built by done.
  apply for_each_mono. intros s x s'. apply ensure_numeric_column_Ok.
Qed.

(** ** The data layer *)

Section Invariants.
Context `{Pandas} `{!Databricks}.

Lemma keeps_ret {A} I (a : A) : keeps I (ret a).
Proof. by intros p. Qed.

Lemma keeps_raise {A} I e : keeps I (raise (A := A) e).
Proof. by intros p. Qed.

Lemma keeps_lift {A} I (r : result A) : keeps I (lift r).
Proof. by intros p. Qed.

Lemma keeps_get_self I : keeps I get_self.
Proof. by intros p. Qed.

Lemma keeps_bind {A B} I (m : M A) (k : A → M B) :
  keeps I m → (∀ a, keeps I (k a)) → keeps I (bind m k).
Proof.
  intros Hm Hk p Hp. unfold bind. specialize (Hm p Hp).
  destruct (m p) as [[a|e] p']; [by apply Hk | done].
Qed.

(** A property of the process that the methods of the data layer keep: it
    survives the recorded events [allowed], a new connection or session
    handle, a cache update, and mode detection. *)
Variable I : process → Prop.
Variable allowed : event → Prop.
Hypothesis I_event : ∀ p w e, allowed e → I p →
  I {| self := self p; outside := w; trace := e :: trace p; cache := cache p |}.
Hypothesis I_connection : ∀ p c, I p →
  I {| self := {| _connection := c; _spark := _spark (self p);
                  _use_sql_connector := _use_sql_connector (self p) |};
       outside := outside p; trace := trace p; cache := cache p |}.
Hypothesis I_spark : ∀ p s, I p →
  I {| self := {| _connection := _connection (self p); _spark := s;
                  _use_sql_connector := _use_sql_connector (self p) |};
       outside := outside p; trace := trace p; cache := cache p |}.
Hypothesis I_cache : ∀ p c, I p →
  I {| self := self p; outside := outside p; trace := trace p; cache := c |}.
Hypothesis I_detect : ∀ env, keeps I (_detect_connection_type env).
Hypothesis allowed_network : ∀ e, is_execution e = false → allowed e.

Lemma keeps_call {A} e (op : world → result A * world) :
  allowed e → keeps I (call e op).
Proof.
  intros He p Hp. unfold call. destruct (op (outside p)) as [r w]. by apply I_event.
Qed.

Lemma keeps_record e : allowed e → keeps I (record e).
Proof.
  intros He p Hp. unfold record. cbn.
  destruct p as [d w t c]. by apply (I_event {| self := d; outside := w; trace := t; cache := c |} w e).
Qed.

Lemma keeps_set_connection c : keeps I (set_connection c).
Proof. intros p Hp. by apply I_connection. Qed.

Lemma keeps_set_spark s : keeps I (set_spark s).
Proof. intros p Hp. by apply I_spark. Qed.

Lemma keeps__get_sql_connection env : keeps I (_get_sql_connection env).
Proof.
  unfold _get_sql_connection. case_match; [apply keeps_raise|].
  by apply keeps_call, allowed_network.
Qed.

Lemma keeps__get_spark_session env : keeps I (_get_spark_session env).
Proof.
  unfold _get_spark_session. case_match; by apply keeps_call, allowed_network.
Qed.

Lemma keeps_connection_property env : keeps I (connection_property env).
Proof.
  unfold connection_property.
  apply keeps_bind; [apply keeps_get_self|]. intros d.
  apply keeps_bind.
  - destruct (_connection d); [apply keeps_ret|].
    apply keeps_bind; [apply I_detect|]. intros [|]; [|apply keeps_ret].
    apply keeps_bind; [apply keeps__get_sql_connection|]. apply keeps_set_connection.
  - intros _. apply keeps_bind; [apply keeps_get_self|]. intros d'. apply keeps_ret.
Qed.

Lemma keeps_spark_property env : keeps I (spark_property env).
Proof.
  unfold spark_property.
  apply keeps_bind; [apply keeps_get_self|]. intros d.
  apply keeps_bind.
  - destruct (_spark d); [apply keeps_ret|].
    apply keeps_bind; [apply I_detect|]. intros [|]; [apply keeps_ret|].
    apply keeps_bind; [apply keeps__get_spark_session|]. apply keeps_set_spark.
  - intros _. apply keeps_bind; [apply keeps_get_self|]. intros d'. apply keeps_ret.
Qed.

(** [_execute_query] keeps such a property from the entry it records on. *)
Lemma keeps__execute_query_recorded env query p :
  I (record (Executes query) p).2 → I (_execute_query env query p).2.
Proof.
  intros Hp. unfold _execute_query.
  match goal with
  | |- I (bind ?m ?k p).2 => assert (Hk : keeps I (k tt)); [|exact (Hk _ Hp)]
  end.
  apply keeps_bind; [apply I_detect|]. intros [|].
  - apply keeps_bind; [apply keeps_connection_property|]. intros [conn|]; [|apply keeps_raise].
    apply keeps_bind; [by apply keeps_call, allowed_network|]. intros fetched.
    apply keeps_bind; [apply keeps_lift|]. intros df.
    apply keeps_bind; [apply keeps_lift|]. intros df'. apply keeps_ret.
  - apply keeps_bind; [apply keeps_spark_property|]. intros [sess|]; [|apply keeps_raise].
    by apply keeps_call, allowed_network.
Qed.

End Invariants.

Section LayerFacts.
Context `{Pandas} `{!Databricks}.

(** *** Mode resolution *)

Lemma _detect_connection_type_pinned env b p :
  pinned b p → _detect_connection_type env p = (Ok b, p).
Proof.
  unfold pinned. intros Hb. unfold _detect_connection_type, bind, get_self.
  by rewrite Hb.
Qed.

Lemma _detect_connection_type_pins env p :
  ∃ b, (_detect_connection_type env p).1 = Ok b ∧
       pinned b (_detect_connection_type env p).2.
Proof.
  destruct (_use_sql_connector (self p)) as [b|] eqn:Hmode.
  - exists b. by rewrite (_detect_connection_type_pinned env b p).
  - unfold _detect_connection_type, bind, get_self. rewrite Hmode.
    destruct (truthy (getenv env "DATABRICKS_RUNTIME_VERSION")),
             (truthy (getenv env "DATABRICKS_WAREHOUSE_ID")),
             (truthy (getenv env "DATABRICKS_HTTP_PATH")),
             (truthy (getenv env "DATABRICKS_CLUSTER_ID"));
      eexists; split; reflexivity.
Qed.

Lemma keeps_pinned_detect b env : keeps (pinned b) (_detect_connection_type env).
Proof. intros p Hp. by rewrite (_detect_connection_type_pinned env b p). Qed.

Lemma keeps_pinned_getOrCompute b key ttl (compute : M value) now :
  keeps (pinned b) compute → keeps (pinned b) (getOrCompute key ttl compute now).
Proof.
  intros Hc p Hp. unfold getOrCompute. specialize (Hc p Hp).
  destruct (cache p !! key) as [e|]; [case_bool_decide; [done|]|];
    by destruct (compute p) as [[v|e'] p'].
Qed.

Lemma keeps_pinned__execute_query b env query :
  keeps (pinned b) (_execute_query env query).
Proof.
  intros p Hp.
  apply (keeps__execute_query_recorded (pinned b) (λ _, True)); try done.
  intros env'. apply keeps_pinned_detect.
Qed.

Lemma keeps_pinned_after b env r p : pinned b p → pinned b (after env r p).
Proof.
  intros Hp. destruct r; cbn [after].
  - by apply keeps_pinned_detect.
  - apply (keeps_connection_property (pinned b) (λ _, True)); try done.
    intros env'. apply keeps_pinned_detect.
  - apply (keeps_spark_property (pinned b) (λ _, True)); try done.
    intros env'. apply keeps_pinned_detect.
  - apply keeps_pinned_getOrCompute; [|done]. unfold metric_body.
    apply keeps_bind; [apply keeps_pinned__execute_query|]. intros df.
    destruct m; try apply keeps_ret.
    apply keeps_bind; [apply keeps_lift|]. intros d. apply keeps_ret.
  - by apply keeps_pinned__execute_query.
  - unfold health_check.
    pose proof (keeps_pinned__execute_query b env "SELECT 1 as health" p Hp) as Hq.
    by destruct (_execute_query env "SELECT 1 as health" p) as [[df|e] p'].
  - unfold get_connection_info.
    apply keeps_bind; [apply keeps_pinned_detect | | done].
    intros [|]; apply keeps_ret.
  - done.
Qed.

Lemma keeps_pinned_after_all b rs p : pinned b p → pinned b (after_all rs p).
Proof.
  revert p. induction rs as [|[env r] rs IH]; intros p Hp; [done|].
  cbn [after_all foldl]. apply IH. by apply keeps_pinned_after.
Qed.

(** C2.  On its first call (no mode stored yet) [_detect_connection_type]
    returns the mode the priority order dictates for the four environment
    signals: the managed-runtime marker gives ManagedSession; else a
    warehouse identifier or a wire path gives WarehouseSQL; else a cluster
    identifier gives ManagedSession; else WarehouseSQL. *)
Theorem mode_resolution_priority (env : environ) (p : process) :
  _use_sql_connector (self p) = None →
  ∃ b, (_detect_connection_type env p).1 = Ok b ∧
       mode_of b = resolveMode (present env "DATABRICKS_RUNTIME_VERSION")
                               (present env "DATABRICKS_WAREHOUSE_ID")
                               (present env "DATABRICKS_HTTP_PATH")
                               (present env "DATABRICKS_CLUSTER_ID") ∧
       (present env "DATABRICKS_RUNTIME_VERSION" = true → mode_of b = ManagedSession) ∧
       (present env "DATABRICKS_RUNTIME_VERSION" = false →
        present env "DATABRICKS_WAREHOUSE_ID" = true ∨ present env "DATABRICKS_HTTP_PATH" = true →
        mode_of b = WarehouseSQL) ∧
       (present env "DATABRICKS_RUNTIME_VERSION" = false →
        present env "DATABRICKS_WAREHOUSE_ID" = false →
        present env "DATABRICKS_HTTP_PATH" = false →
        present env "DATABRICKS_CLUSTER_ID" = true → mode_of b = ManagedSession) ∧
       (present env "DATABRICKS_RUNTIME_VERSION" = false →
        present env "DATABRICKS_WAREHOUSE_ID" = false →
        present env "DATABRICKS_HTTP_PATH" = false →
        present env "DATABRICKS_CLUSTER_ID" = false → mode_of b = WarehouseSQL).
Proof.
  intros Hmode. unfold _detect_connection_type, bind, get_self. rewrite Hmode.
  unfold present, resolveMode.
  destruct (truthy (getenv env "DATABRICKS_RUNTIME_VERSION")),
           (truthy (getenv env "DATABRICKS_WAREHOUSE_ID")),
           (truthy (getenv env "DATABRICKS_HTTP_PATH")),
           (truthy (getenv env "DATABRICKS_CLUSTER_ID"));
    cbn; eexists; (split; [reflexivity|]); cbn; intuition discriminate.
Qed.

(** C7.  Once a call of [_detect_connection_type] has returned a mode, every
    later call returns it, whatever requests were served in between and
    whatever the environment has become.  The class has no method that clears
    the stored mode. *)
Theorem mode_is_memoized (env : environ) (p : process)
    (rs : list (environ * request)) (env' : environ) :
  ∃ b, (_detect_connection_type env p).1 = Ok b ∧
       _detect_connection_type env' (after_all rs (_detect_connection_type env p).2)
       = (Ok b, after_all rs (_detect_connection_type env p).2).
Proof.
  destruct (_detect_connection_type_pins env p) as (b & Hb & Hpin).
  exists b. split; [done|].
  apply _detect_connection_type_pinned. by apply keeps_pinned_after_all.
Qed.

(** *** The SQL connection *)

Lemma trace_cons_ne (e : event) (t : list event) : e :: t ≠ t.
Proof.
  intros Heq. apply (f_equal length) in Heq. cbn in Heq. lia.
Qed.

Lemma sql_http_path_explicit (env : environ) :
  present env "DATABRICKS_HTTP_PATH" = true →
  sql_http_path env = getenv env "DATABRICKS_HTTP_PATH".
Proof. unfold present, sql_http_path. intros Hp. by rewrite Hp. Qed.

Lemma sql_http_path_derived (env : environ) (id : string) :
  present env "DATABRICKS_HTTP_PATH" = false →
  getenv env "DATABRICKS_WAREHOUSE_ID" = Some id → id ≠ "" →
  sql_http_path env = Some ("/sql/1.0/warehouses/" +:+ id).
Proof.
  unfold present, sql_http_path. intros Hp Hid Hne. rewrite Hp, Hid. cbn.
  by destruct (String.eqb_spec id "").
Qed.

Lemma sql_http_path_absent (env : environ) :
  present env "DATABRICKS_HTTP_PATH" = false →
  present env "DATABRICKS_WAREHOUSE_ID" = false →
  truthy (sql_http_path env) = false.
Proof. unfold present, sql_http_path. intros Hp Hw. by rewrite Hp, Hw. Qed.

(** C4.  [_get_sql_connection] raises the configuration error, and the
    process is as before (nothing has gone over the network), if and only if
    the host, the token or the HTTP path is missing; otherwise it calls
    [sql.connect] with them.  The HTTP path is the explicit wire path when
    that is set, and otherwise [/sql/1.0/warehouses/{id}] for the warehouse
    identifier. *)
Theorem sql_connection_needs_configuration (env : environ) (p : process) :
  let missing :=
    sql_host env = "" ∨ present env "DATABRICKS_TOKEN" = false
    ∨ truthy (sql_http_path env) = false in
  (_get_sql_connection env p = (Raise (ValueError missing_configuration), p) ↔ missing) ∧
  (trace (_get_sql_connection env p).2 = trace p ↔ missing) ∧
  (¬ missing →
   trace (_get_sql_connection env p).2
   = Connects (sql_host env) (default "" (sql_http_path env))
              (default "" (getenv env "DATABRICKS_TOKEN")) :: trace p) ∧
  (present env "DATABRICKS_HTTP_PATH" = true →
   sql_http_path env = getenv env "DATABRICKS_HTTP_PATH") ∧
  (present env "DATABRICKS_HTTP_PATH" = false →
   ∀ id, getenv env "DATABRICKS_WAREHOUSE_ID" = Some id → id ≠ "" →
         sql_http_path env = Some ("/sql/1.0/warehouses/" +:+ id)) ∧
  (present env "DATABRICKS_HTTP_PATH" = false →
   present env "DATABRICKS_WAREHOUSE_ID" = false →
   truthy (sql_http_path env) = false).
Proof.
  cbn zeta.
  assert (Hhost : truthy (Some (sql_host env)) = false ↔ sql_host env = "").
  { cbn [truthy]. destruct (String.eqb_spec (sql_host env) ""); cbn; split; congruence. }
  assert (Hcheck :
    negb (truthy (Some (sql_host env))) || negb (truthy (getenv env "DATABRICKS_TOKEN"))
      || negb (truthy (sql_http_path env)) = true
    ↔ sql_host env = "" ∨ present env "DATABRICKS_TOKEN" = false
      ∨ truthy (sql_http_path env) = false).
  { unfold present. rewrite <- Hhost. rewrite !orb_true_iff, !negb_true_iff. tauto. }
  split_and!; [ | | | apply sql_http_path_explicit
              | intros Hp id; by apply sql_http_path_derived
              | apply sql_http_path_absent ];
    unfold _get_sql_connection;
    destruct (negb (truthy (Some (sql_host env)))
              || negb (truthy (getenv env "DATABRICKS_TOKEN"))
              || negb (truthy (sql_http_path env))) eqn:Hc.
  - split; [intros _; by apply Hcheck | done].
  - split.
    + unfold call. destruct (sql_connect _ _ _ (outside p)) as [r w].
      intros [= _ Hp]. apply (f_equal trace) in Hp. cbn in Hp.
      by apply trace_cons_ne in Hp.
    + intros Hm. apply Hcheck in Hm. congruence.
  - split; [intros _; by apply Hcheck | done].
  - split.
    + unfold call. destruct (sql_connect _ _ _ (outside p)) as [r w]. cbn.
      intros Ht. by apply trace_cons_ne in Ht.
    + intros Hm. apply Hcheck in Hm. congruence.
  - intros Hok. exfalso. by apply Hok, Hcheck.
  - intros _. unfold call. by destruct (sql_connect _ _ _ (outside p)) as [r w].
Qed.

(** With only a token set the error is raised and nothing is recorded. *)
Example token_only_configuration_error (p : process) :
  _get_sql_connection {[ "DATABRICKS_TOKEN" := "dapi0" ]} p
  = (Raise (ValueError missing_configuration), p).
Proof. reflexivity. Qed.

(** *** The health check *)

(** C8.  [health_check] always returns a boolean: [True] when the probe
    query returns, [False] whenever its execution raises. *)
Theorem health_check_swallows_errors (env : environ) (p : process) :
  ∃ b, (health_check env p).1 = Ok b ∧
       (b = true ↔ ∃ df, (_execute_query env "SELECT 1 as health" p).1 = Ok df) ∧
       (b = false ↔ ∃ e, (_execute_query env "SELECT 1 as health" p).1 = Raise e).
Proof.
  unfold health_check.
  destruct (_execute_query env "SELECT 1 as health" p) as [[df|e] p']; cbn.
  - exists true. split_and!; [done| |].
    + split; [by exists df | done].
    + split; [done | by intros [e ?]].
  - exists false. split_and!; [done| |].
    + split; [done | by intros [df ?]].
    + split; [by exists e | done].
Qed.

End LayerFacts.

Section ExecutionFacts.
Context `{Pandas} `{!Databricks}.

(** *** Query execution *)

(** C1, as amended.  On the warehouse path [_execute_query] returns the
    normalised raw result: the frame built from the fetched rows goes through
    [_convert_numeric_columns].  On the cluster path it returns what
    [toPandas()] gives, as it is. *)
Theorem execute_query_normalizes_on_the_warehouse_path
    (env : environ) (query : string) (p : process) :
  let p0 := (record (Executes query) p).2 in
  (∀ p1 conn p2 fetched w raw,
     _detect_connection_type env p0 = (Ok true, p1) →
     connection_property env p1 = (Ok (Some conn), p2) →
     cursor_fetch conn query (outside p2) = (Ok fetched, w) →
     DataFrame_of_rows fetched.2 fetched.1.*1 = Ok raw →
     (_execute_query env query p).1 = _convert_numeric_columns raw) ∧
  (∀ p1 sess p2 raw w,
     _detect_connection_type env p0 = (Ok false, p1) →
     spark_property env p1 = (Ok (Some sess), p2) →
     sql_toPandas sess query (outside p2) = (Ok raw, w) →
     (_execute_query env query p).1 = Ok raw).
Proof.
  cbn zeta. split.
  - intros p1 conn p2 fetched w raw Hmode Hconn Hfetch Hraw.
    unfold _execute_query, bind at 1. cbn [record].
    unfold bind at 1. cbn [record snd] in Hmode. rewrite Hmode.
    unfold bind at 1. rewrite Hconn.
    unfold bind at 1, call. rewrite Hfetch.
    unfold bind at 1, lift. rewrite Hraw.
    unfold bind, ret. by destruct (_convert_numeric_columns raw).
  - intros p1 sess p2 raw w Hmode Hsess Hrun.
    unfold _execute_query, bind at 1. cbn [record].
    unfold bind at 1. cbn [record snd] in Hmode. rewrite Hmode.
    unfold bind at 1. rewrite Hsess.
    unfold call. by rewrite Hrun.
Qed.

(** *** Counting executions *)

Lemma trace__detect_connection_type env p :
  trace (_detect_connection_type env p).2 = trace p.
Proof.
  unfold _detect_connection_type, bind, get_self.
  destruct (_use_sql_connector (self p)); [done|].
  repeat (case_match; try done).
Qed.

Lemma executions__execute_query env query p :
  executions (_execute_query env query p).2 = S (executions p).
Proof.
  apply (keeps__execute_query_recorded
           (λ q, executions q = S (executions p)) (λ e, is_execution e = false)).
  - intros q w e He Hq. unfold executions in *. cbn. by rewrite He.
  - done.
  - done.
  - intros env' q Hq. unfold executions in *.
    by rewrite trace__detect_connection_type.
  - done.
  - done.
Qed.

Lemma executions_metric_body env m p :
  executions (metric_body env m p).2 = S (executions p).
Proof.
  unfold metric_body, bind.
  pose proof (executions__execute_query env (query_of m) p) as Hq.
  destruct (_execute_query env (query_of m) p) as [[df|e] p']; [|done].
  destruct m; try done. unfold lift. by destruct (first_row_to_dict df).
Qed.

(** C5.  For every metric and every value of its parameter: when a call
    finds no live entry and returns, it has entered [_execute_query] exactly
    once; a call with the same metric and parameter less than 3600 seconds
    later returns the stored result and leaves the process as it is, so
    nothing is executed; a call 3600 seconds later or more enters
    [_execute_query] again, and what it returns is stored with the time of
    that call. *)
Theorem cache_serves_within_ttl (m : metric) (env1 env2 env3 : environ)
    (t1 t2 t3 : Z) (p p1 : process) (v : value) :
  (∀ e, cache p !! m = Some e → ¬ (t1 - stored_at e < 3600)%Z) →
  get_metric env1 t1 m p = (Ok v, p1) →
  (t1 ≤ t2 < t1 + 3600)%Z →
  (t1 + 3600 ≤ t3)%Z →
  executions p1 = S (executions p) ∧
  get_metric env2 t2 m p1 = (Ok v, p1) ∧
  executions (get_metric env3 t3 m p1).2 = S (executions p1) ∧
  ∀ v3 p3, get_metric env3 t3 m p1 = (Ok v3, p3) →
           cache p3 !! m = Some {| cached := v3; stored_at := t3 |}.
Proof.
  intros Hstale Hfirst Ht2 Ht3.
  assert (Hmiss : get_metric env1 t1 m p =
    match metric_body env1 m p with
    | (Ok v, p') =>
        (Ok v, {| self := self p'; outside := outside p'; trace := trace p';
                  cache := <[m := {| cached := v; stored_at := t1 |}]> (cache p') |})
    | (Raise e, p') => (Raise e, p')
    end).
  { unfold get_metric, getOrCompute.
    destruct (cache p !! m) as [e|] eqn:He; [|done].
    rewrite bool_decide_eq_false_2; [done | by apply Hstale]. }
  rewrite Hmiss in Hfirst.
  pose proof (executions_metric_body env1 m p) as Hexec.
  destruct (metric_body env1 m p) as [[v1|e1] p'] eqn:Hbody; [|done].
  injection Hfirst as -> <-.
  assert (Hentry : cache {| self := self p'; outside := outside p'; trace := trace p';
                            cache := <[m := {| cached := v; stored_at := t1 |}]> (cache p') |}
                   !! m = Some {| cached := v; stored_at := t1 |})
    by apply lookup_insert_eq.
  split_and!.
  - exact Hexec.
  - unfold get_metric, getOrCompute. rewrite Hentry. cbn [stored_at cached].
    rewrite bool_decide_eq_true_2; [done | lia].
  - unfold get_metric, getOrCompute. rewrite Hentry. cbn [stored_at].
    rewrite bool_decide_eq_false_2 by lia.
    match goal with
    | |- context [metric_body env3 m ?q] =>
        pose proof (executions_metric_body env3 m q) as Hexec3;
        destruct (metric_body env3 m q) as [[v3|e3] p3]
    end; exact Hexec3.
  - intros v3 p3. unfold get_metric, getOrCompute. rewrite Hentry. cbn [stored_at].
    rewrite bool_decide_eq_false_2 by lia.
    match goal with
    | |- context [metric_body env3 m ?q] =>
        destruct (metric_body env3 m q) as [[v3'|e3] p3']
    end; [|done].
    intros [= -> <-]. apply lookup_insert_eq.
Qed.

(** The ad-hoc path is not cached: every call enters [_execute_query]. *)
Lemma execute_custom_query_executes env query p :
  executions (execute_custom_query env query p).2 = S (executions p).
Proof. apply executions__execute_query. Qed.

(** A computation that raises stores nothing: the call raises the same
    exception and the process is as the computation left it. *)
Lemma getOrCompute_raise key ttl (compute : M value) now p e p' :
  getOrCompute key ttl compute now p = (Raise e, p') → compute p = (Raise e, p').
Proof.
  unfold getOrCompute.
  destruct (cache p !! key) as [en|]; [case_bool_decide; [done|]|];
    destruct (compute p) as [[v|e'] q]; by intros [= <- <-].
Qed.

End ExecutionFacts.

(** ** The claims on the sample *)

Lemma mode_resolution_priority_witness :
  _use_sql_connector (self fresh) = None ∧
  ∃ b, (_detect_connection_type warehouse_env fresh).1 = Ok b ∧
       mode_of b = resolveMode (present warehouse_env "DATABRICKS_RUNTIME_VERSION")
                               (present warehouse_env "DATABRICKS_WAREHOUSE_ID")
                               (present warehouse_env "DATABRICKS_HTTP_PATH")
                               (present warehouse_env "DATABRICKS_CLUSTER_ID") ∧
       (present warehouse_env "DATABRICKS_RUNTIME_VERSION" = true →
        mode_of b = ManagedSession) ∧
       (present warehouse_env "DATABRICKS_RUNTIME_VERSION" = false →
        present warehouse_env "DATABRICKS_WAREHOUSE_ID" = true
        ∨ present warehouse_env "DATABRICKS_HTTP_PATH" = true →
        mode_of b = WarehouseSQL) ∧
       (present warehouse_env "DATABRICKS_RUNTIME_VERSION" = false →
        present warehouse_env "DATABRICKS_WAREHOUSE_ID" = false →
        present warehouse_env "DATABRICKS_HTTP_PATH" = false →
        present warehouse_env "DATABRICKS_CLUSTER_ID" = true →
        mode_of b = ManagedSession) ∧
       (present warehouse_env "DATABRICKS_RUNTIME_VERSION" = false →
        present warehouse_env "DATABRICKS_WAREHOUSE_ID" = false →
        present warehouse_env "DATABRICKS_HTTP_PATH" = false →
        present warehouse_env "DATABRICKS_CLUSTER_ID" = false →
        mode_of b = WarehouseSQL).
Proof.
  split; [reflexivity|].
  exact (mode_resolution_priority warehouse_env fresh eq_refl).
Defined.

(** The sixteen combinations of the four signals, on a fresh data layer. *)
Example mode_resolution_table :
  ∀ marker warehouse path cluster : bool,
    let set (name : string) (on : bool) (env : environ) : environ :=
      if on then <[name := "x"]> env else env in
    let env := set "DATABRICKS_RUNTIME_VERSION" marker
                 (set "DATABRICKS_WAREHOUSE_ID" warehouse
                    (set "DATABRICKS_HTTP_PATH" path
                       (set "DATABRICKS_CLUSTER_ID" cluster ∅))) in
    mode_of <$> (match (_detect_connection_type env fresh).1 with
                 | Ok b => Some b
                 | Raise _ => None
                 end)
    = Some (resolveMode marker warehouse path cluster).
Proof. intros [|] [|] [|] [|]; vm_compute; reflexivity. Qed.

(** A variable set to the empty string counts as absent. *)
Example empty_marker_is_absent :
  (_detect_connection_type
     {[ "DATABRICKS_RUNTIME_VERSION" := ""; "DATABRICKS_WAREHOUSE_ID" := "abc123" ]}
     fresh).1 = Ok true.
Proof. reflexivity. Qed.

Lemma execute_query_normalizes_on_the_warehouse_path_witness :
  (_execute_query warehouse_env "SELECT 1" fresh).1
    = _convert_numeric_columns sample_frame ∧
  (_execute_query cluster_env "SELECT 1" fresh).1 = Ok sample_frame.
Proof.
  split.
  - set (p0 := (record (Executes "SELECT 1") fresh).2).
    set (p1 := (_detect_connection_type warehouse_env p0).2).
    set (p2 := (connection_property warehouse_env p1).2).
    apply (proj1 (execute_query_normalizes_on_the_warehouse_path
                    warehouse_env "SELECT 1" fresh)
             p1 tt p2 ([("amount", "string"); ("label", "string")], sample_rows) 2);
      vm_compute; reflexivity.
  - set (p0 := (record (Executes "SELECT 1") fresh).2).
    set (p1 := (_detect_connection_type cluster_env p0).2).
    set (p2 := (spark_property cluster_env p1).2).
    apply (proj2 (execute_query_normalizes_on_the_warehouse_path
                    cluster_env "SELECT 1" fresh)
             p1 tt p2 sample_frame 2);
      vm_compute; reflexivity.
Defined.

(** C1 as stated fails on the cluster path: the frame [toPandas()] gives has
    an object column of numeric text, and [_execute_query] returns it as it
    is, not its normalisation. *)
Lemma execute_query_skips_normalizer_on_the_cluster_path :
  sql_toPandas tt "SELECT 1" 1 = (Ok sample_frame, 2) ∧
  (_execute_query cluster_env "SELECT 1" fresh).1 = Ok sample_frame ∧
  (_execute_query cluster_env "SELECT 1" fresh).1
    ≠ _convert_numeric_columns sample_frame.
Proof.
  split_and!; [reflexivity | vm_compute; reflexivity | vm_compute; discriminate].
Qed.

Lemma cache_serves_within_ttl_witness :
  let first := get_metric warehouse_env 0 (top_customers 10) fresh in
  (∀ e, cache fresh !! top_customers 10 = Some e → ¬ (0 - stored_at e < 3600)%Z) ∧
  first = (Ok served, first.2) ∧
  (0 ≤ 100 < 0 + 3600)%Z ∧
  (0 + 3600 ≤ 3600)%Z ∧
  executions first.2 = S (executions fresh) ∧
  get_metric cluster_env 100 (top_customers 10) first.2 = (Ok served, first.2) ∧
  executions (get_metric warehouse_env 3600 (top_customers 10) first.2).2
    = S (executions first.2) ∧
  ∀ v3 p3, get_metric warehouse_env 3600 (top_customers 10) first.2 = (Ok v3, p3) →
           cache p3 !! top_customers 10 = Some {| cached := v3; stored_at := 3600 |}.
Proof.
  intros first.
  assert (Hstale : ∀ e, cache fresh !! top_customers 10 = Some e →
                        ¬ (0 - stored_at e < 3600)%Z).
  { intros e He. cbn in He. rewrite lookup_empty in He. discriminate He. }
  assert (Hfirst : first = (Ok served, first.2)) by (vm_compute; reflexivity).
  assert (Ht2 : (0 ≤ 100 < 0 + 3600)%Z) by lia.
  assert (Ht3 : (0 + 3600 ≤ 3600)%Z) by lia.
  refine (conj Hstale (conj Hfirst (conj Ht2 (conj Ht3 _)))).
  exact (cache_serves_within_ttl (top_customers 10) warehouse_env cluster_env
           warehouse_env 0 100 3600 fresh first.2 served Hstale Hfirst Ht2 Ht3).
Defined.

(** * Further facts *)

Section MoreFrameFacts.
Context `{PyValues}.

Lemma to_dict_list_keys (df : DataFrame) :
  (to_dict_list df).*1 = new_names [] (columns df).
Proof.
  unfold to_dict_list, columns.
  assert (Hgen : ∀ d : list (string * list pyobj),
    (foldl (λ d kc, dict_set kc.1 (tolist kc.2) d) d df).*1
    = d.*1 ++ new_names d.*1 df.*1).
  { induction df as [|[k c] df IH]; intros d.
    - cbn. by rewrite app_nil_r.
    - cbn [foldl]. rewrite IH, dict_set_keys. rewrite fmap_cons. cbn [fst new_names].
      destruct (decide (k ∈ d.*1)); [done|]. by rewrite <- app_assoc. }
  apply (Hgen []).
Qed.

Lemma elem_of_new_names (seen names : list string) (k : string) :
  k ∈ new_names seen names ↔ k ∈ names ∧ k ∉ seen.
Proof.
  revert seen. induction names as [|k' names IH]; intros seen; cbn [new_names].
  - rewrite elem_of_nil. split; [done | by intros [? _]].
  - destruct (decide (k' ∈ seen)) as [Hin|Hnin].
    + rewrite IH, elem_of_cons. split; [intros [? ?]; by auto|].
      intros [[->|?] ?]; [done | by auto].
    + rewrite !elem_of_cons, IH, elem_of_app, list_elem_of_singleton. split.
      * intros [->|[? ?]]; [by auto|]. split; [by auto | tauto].
      * intros [[->|?] ?]; [by left|]. destruct (decide (k = k')) as [->|?]; [by left|].
        right. split; [done|]. tauto.
Qed.

(** The entry a dictionary holds under a key. *)
Lemma elem_of_dict_set {V} (k k' : string) (v v' : V) (d : list (string * V)) :
  NoDup d.*1 →
  (k, v) ∈ dict_set k' v' d ↔ (k = k' ∧ v = v') ∨ (k ≠ k' ∧ (k, v) ∈ d).
Proof.
  induction d as [|[k0 v0] d IH]; intros Hnd; cbn [dict_set].
  - rewrite list_elem_of_singleton, elem_of_nil. split.
    + intros [= -> ->]. by left.
    + intros [[-> ->]|[_ []]]. done.
  - rewrite fmap_cons in Hnd. cbn [fst] in Hnd. apply NoDup_cons in Hnd as [Hk0 Hnd].
    destruct (decide (k' = k0)) as [->|Hne].
    + rewrite !elem_of_cons. split.
      * intros [[= -> ->]|Hin]; [by left|]. right. split; [|by right].
        intros ->. apply Hk0. by apply (list_elem_of_fmap_2 fst) in Hin.
      * intros [[-> ->]|[Hne [[= -> ->]|Hin]]]; [by left | done | by right].
    + rewrite !elem_of_cons, IH by done. split.
      * intros [[= -> ->]|[[-> ->]|[? ?]]]; [right | by left | right]; split; auto.
      * intros [[-> ->]|[? [[= -> ->]|?]]]; [right; by left | by left | right; right; auto].
Qed.

(** [df.to_dict('list')] holds, under each name, the values of the last
    column of that name. *)
Lemma to_dict_list_last (df before after : DataFrame) (k : string) (c : column) :
  df = before ++ (k, c) :: after → k ∉ columns after →
  (k, tolist c) ∈ to_dict_list df.
Proof.
  intros -> Hafter. unfold to_dict_list.
  rewrite foldl_app. cbn [foldl fst snd].
  set (d0 := foldl _ [] before).
  assert (Hd0 : NoDup d0.*1) by apply to_dict_list_NoDup.
  assert (Hin : (k, tolist c) ∈ dict_set k (tolist c) d0)
    by (apply elem_of_dict_set; [done | by left]).
  assert (Hnd : NoDup (dict_set k (tolist c) d0).*1) by (by apply dict_set_NoDup).
  clear Hd0. revert Hin Hnd. generalize (dict_set k (tolist c) d0). clear d0.
  unfold columns in Hafter.
  induction after as [|[k' c'] after IH]; intros d Hin Hnd; [done|].
  rewrite fmap_cons in Hafter. cbn [fst] in Hafter.
  apply not_elem_of_cons in Hafter as [Hne Hafter].
  cbn [foldl fst snd]. apply IH; [done| |by apply dict_set_NoDup].
  apply elem_of_dict_set; [done|]. right. by split.
Qed.

End MoreFrameFacts.

Section MoreNormalizerFacts.
Context `{Pandas}.

(** X1.  [_convert_numeric_columns] returns for every frame: its loop never
    meets a repeated name, and a conversion that raises is swallowed.  The
    frame it returns has every name of the input once, in the order in which
    the names first occur. *)
Theorem _convert_numeric_columns_never_raises (df : DataFrame) :
  ∃ out, _convert_numeric_columns df = Ok out ∧
         columns out = new_names [] (columns df) ∧
         NoDup (columns out) ∧
         ∀ name, name ∈ columns out ↔ name ∈ columns df.
Proof.
  exists (map_columns converted_column (rebuilt df)).
  assert (Hcols : columns (map_columns converted_column (rebuilt df))
                  = new_names [] (columns df)).
  { rewrite columns_map_columns. unfold rebuilt.
    rewrite columns_DataFrame_of_dict. apply to_dict_list_keys. }
  split_and!.
  - apply _convert_numeric_columns_spec.
  - exact Hcols.
  - rewrite columns_map_columns. apply rebuilt_NoDup.
  - intros name. rewrite Hcols, elem_of_new_names.
    split; [by intros [? _] | intros ?; split; [done | apply not_elem_of_nil]].
Qed.

(** X2.  Under a repeated name the column that survives is the last one of
    that name: the result holds it, rebuilt from its values and put through
    the loop. *)
Theorem _convert_numeric_columns_keeps_last (df before after : DataFrame)
    (name : string) (c : column) :
  df = before ++ (name, c) :: after →
  name ∉ columns after →
  ∃ out, _convert_numeric_columns df = Ok out ∧
         (name, converted_column (from_list (tolist c))) ∈ out.
Proof.
  intros Hdf Hafter.
  exists (map_columns converted_column (rebuilt df)).
  split; [apply _convert_numeric_columns_spec|].
  pose proof (to_dict_list_last df before after name c Hdf Hafter) as Hin.
  unfold map_columns, rebuilt, DataFrame_of_dict.
  apply (list_elem_of_fmap_2
           (λ kl : string * list pyobj, (kl.1, from_list kl.2))) in Hin.
  apply (list_elem_of_fmap_2
           (λ kc : string * column, (kc.1, converted_column kc.2))) in Hin.
  exact Hin.
Qed.

Lemma to_numeric_returns_converted_column (c : column) :
  to_numeric_returns c → to_numeric_returns (converted_column c).
Proof.
  destruct c as [l|l|l]; try done. cbn. intros Hr. rewrite Hr.
  by destruct (isna_all (parse <$> l)).
Qed.

(** X3.  [ensure_numeric_columns] is idempotent on a frame with distinct
    column names on which [pd.to_numeric] returns. *)
Theorem ensure_numeric_columns_idempotent (df : DataFrame) :
  NoDup (columns df) →
  Forall (λ kc, to_numeric_returns kc.2) df →
  ensure_numeric_columns df ≫= ensure_numeric_columns = ensure_numeric_columns df.
Proof.
  intros Hnd Hret. rewrite (ensure_numeric_columns_spec df) by done.
  cbn [mbind result_bind rbind].
  rewrite ensure_numeric_columns_spec.
  - f_equal. rewrite map_columns_compose. apply map_columns_ext, Forall_forall.
    intros kc _. cbn. apply converted_column_idemp.
  - by rewrite columns_map_columns.
  - unfold map_columns. apply Forall_fmap. cbn.
    eapply Forall_impl; [exact Hret|]. intros kc. apply to_numeric_returns_converted_column.
Qed.

(** X4.  Normalising again in the presentation layer changes nothing: on what
    [_convert_numeric_columns] returns, [ensure_numeric_columns] returns the
    same frame, provided [pd.to_numeric] returns on its object columns. *)
Theorem ensure_after_convert_is_identity (df out : DataFrame) :
  _convert_numeric_columns df = Ok out →
  Forall (λ kc, to_numeric_returns kc.2) out →
  ensure_numeric_columns out = Ok out.
Proof.
  rewrite _convert_numeric_columns_spec. intros [= <-] Hret.
  rewrite ensure_numeric_columns_spec; [|by rewrite columns_map_columns; apply rebuilt_NoDup|done].
  f_equal. rewrite map_columns_compose. apply map_columns_ext, Forall_forall.
  intros kc _. cbn. apply converted_column_idemp.
Qed.






End MoreNormalizerFacts.

Section MoreLayerFacts.
Context `{Pandas} `{!Databricks}.

(** X6.  The connection is opened once: when the property [connection] has
    returned a handle, every later access returns that handle and leaves the
    process as it is, whatever the environment has become. *)
Theorem connection_is_reused (env env' : environ) (p p1 : process) (c : connection) :
  connection_property env p = (Ok (Some c), p1) →
  connection_property env' p1 = (Ok (Some c), p1).
Proof.
  intros Hfirst.
  assert (Hc : _connection (self p1) = Some c).
  { revert Hfirst. unfold connection_property, bind, get_self, ret.
    destruct (_connection (self p)) as [c0|] eqn:Hc0.
    - intros [= Hc <-]. congruence.
    - destruct (_detect_connection_type env p) as [[[|]|e] q]; [| |done].
      + destruct (_get_sql_connection env q) as [[c1|e] q']; [|done].
        cbn. by intros [= -> <-].
      + by intros [= Hc <-]. }
  unfold connection_property, bind, get_self, ret. rewrite Hc. cbn. by rewrite ?Hc.
Qed.

(** X7.  The same holds of the session behind the property [spark]. *)
Theorem spark_session_is_reused (env env' : environ) (p p1 : process) (s : session) :
  spark_property env p = (Ok (Some s), p1) →
  spark_property env' p1 = (Ok (Some s), p1).
Proof.
  intros Hfirst.
  assert (Hs : _spark (self p1) = Some s).
  { revert Hfirst. unfold spark_property, bind, get_self, ret.
    destruct (_spark (self p)) as [s0|] eqn:Hs0.
    - intros [= Hs <-]. congruence.
    - destruct (_detect_connection_type env p) as [[[|]|e] q]; [| |done].
      + by intros [= Hs <-].
      + cbn [negb]. destruct (_get_spark_session env q) as [[s1|e] q']; [|done].
        cbn. by intros [= -> <-]. }
  unfold spark_property, bind, get_self, ret. rewrite Hs. cbn. by rewrite ?Hs.
Qed.

(** X8.  With the mode pinned to the SQL connector and a connection stored,
    [_execute_query] does not read the environment and goes over the network
    exactly once, for the fetch: it returns the normalised frame of what the
    cursor gives, or raises what the cursor, the frame constructor or nothing
    else raises, and the data layer's attributes and the cache stay as they
    are. *)
Theorem execute_query_on_stored_connection
    (env : environ) (query : string) (p : process) (c : connection) :
  pinned true p →
  _connection (self p) = Some c →
  _execute_query env query p
  = ((cursor_fetch c query (outside p)).1 ≫= λ fetched,
       DataFrame_of_rows fetched.2 fetched.1.*1 ≫= _convert_numeric_columns,
     {| self := self p;
        outside := (cursor_fetch c query (outside p)).2;
        trace := Fetches query :: Executes query :: trace p;
        cache := cache p |}).
Proof.
  unfold pinned. intros Hmode Hconn.
  unfold _execute_query, connection_property, _detect_connection_type,
    bind, record, get_self, ret, call, lift.
  cbn. rewrite Hmode. cbn. rewrite Hconn. cbn. rewrite Hconn. cbn.
  destruct (cursor_fetch c query (outside p)) as [[fetched|e] w]; cbn; [|done].
  destruct (DataFrame_of_rows fetched.2 fetched.1.*1) as [raw|e]; cbn; [|done].
  by destruct (_convert_numeric_columns raw).
Qed.

(** X9.  The two paths exclude each other: once the mode is pinned to the
    cluster, [_execute_query] makes no call of the SQL connector, and once it
    is pinned to the warehouse, none of Databricks Connect. *)
Theorem execute_query_stays_on_its_path (env : environ) (query : string) (p : process) :
  (pinned false p →
   List.filter is_sql_event (trace (_execute_query env query p).2)
   = List.filter is_sql_event (trace p)) ∧
  (pinned true p →
   List.filter is_spark_event (trace (_execute_query env query p).2)
   = List.filter is_spark_event (trace p)).
Proof.
  unfold pinned. split; intros Hmode.
  - unfold _execute_query, spark_property, _detect_connection_type, _get_spark_session,
      set_spark, set_self, bind, record, get_self, ret, call, lift.
    cbn. rewrite Hmode. cbn.
    destruct (_spark (self p)) as [s|] eqn:Hs; cbn.
    + rewrite Hs. cbn. by destruct (sql_toPandas s query (outside p)) as [r w].
    + rewrite Hmode. cbn.
      destruct (truthy (getenv env "DATABRICKS_RUNTIME_VERSION"));
        cbn;
        destruct (getOrCreate (outside p)) as [[s|e] w]; cbn; try done;
        by destruct (sql_toPandas s query w) as [r w'].
  - unfold _execute_query, connection_property, _detect_connection_type,
      _get_sql_connection, set_connection, set_self, bind, record, get_self, ret,
      call, lift, raise.
    cbn. rewrite Hmode. cbn.
    destruct (_connection (self p)) as [c|] eqn:Hc; cbn.
    + rewrite Hc. cbn.
      destruct (cursor_fetch c query (outside p)) as [[fetched|e] w]; cbn; [|done].
      destruct (DataFrame_of_rows fetched.2 fetched.1.*1) as [raw|e]; cbn; [|done].
      by destruct (_convert_numeric_columns raw).
    + rewrite Hmode.
      match goal with |- context [if ?b then _ else _] => destruct b end; [done|].
      cbn.
      destruct (sql_connect _ _ _ (outside p)) as [[c|e] w]; cbn; [|done].
      destruct (cursor_fetch c query w) as [[fetched|e] w']; cbn; [|done].
      destruct (DataFrame_of_rows fetched.2 fetched.1.*1) as [raw|e]; cbn; [|done].
      by destruct (_convert_numeric_columns raw).
Qed.

End MoreLayerFacts.

Lemma replace_free_of (old new s : string) :
  free_of old s = true → replace old new s = s.
Proof.
  unfold replace. induction s as [|a s IH]; [done|].
  cbn [free_of replace_from]. intros [Hp Hs]%andb_true_iff.
  apply negb_true_iff in Hp. rewrite Hp. by rewrite IH.
Qed.

Lemma replace_https_prefix (h : string) :
  replace "https://" "" ("https://" +:+ h) = replace "https://" "" h.
Proof. by destruct h. Qed.

Lemma replace_http_prefix (h : string) :
  replace "http://" "" ("http://" +:+ h) = replace "http://" "" h.
Proof. by destruct h. Qed.

Section MoreLayerFacts2.
Context `{Pandas} `{!Databricks}.

Lemma keeps_pinned_connection_property b env :
  keeps (pinned b) (connection_property env).
Proof.
  apply (keeps_connection_property (pinned b) (λ _, True)); try done.
  intros env'. apply keeps_pinned_detect.
Qed.

Lemma keeps_pinned_spark_property b env :
  keeps (pinned b) (spark_property env).
Proof.
  apply (keeps_spark_property (pinned b) (λ _, True)); try done.
  intros env'. apply keeps_pinned_detect.
Qed.

Lemma keeps_pinned_call {A} b e (op : world → result A * world) :
  keeps (pinned b) (call e op).
Proof. intros p Hp. unfold call. by destruct (op (outside p)). Qed.

(** X10.  Every call of [_execute_query] leaves a mode stored, also a call
    that raises: from then on the environment no longer decides the path. *)
Theorem execute_query_pins_mode (env : environ) (query : string) (p : process) :
  ∃ b, pinned b (_execute_query env query p).2 ∧
       ∀ env', _detect_connection_type env' (_execute_query env query p).2
               = (Ok b, (_execute_query env query p).2).
Proof.
  assert (Hpin : ∃ b, pinned b (_execute_query env query p).2).
  { unfold _execute_query. unfold bind at 1. cbn [record]. unfold bind at 1.
    match goal with
    | |- context [_detect_connection_type env ?q] =>
        destruct (_detect_connection_type_pins env q) as (b & Hb & Hpin);
        destruct (_detect_connection_type env q) as [r X]
    end.
    cbn in Hb, Hpin. subst r. exists b. revert X Hpin.
    match goal with
    | |- ∀ X, _ → pinned b (?k X).2 => change (keeps (pinned b) k)
    end.
    destruct b.
    - apply keeps_bind; [apply keeps_pinned_connection_property|].
      intros [conn|]; [|apply keeps_raise].
      apply keeps_bind; [apply keeps_pinned_call|]. intros fetched.
      apply keeps_bind; [apply keeps_lift|]. intros df.
      apply keeps_bind; [apply keeps_lift|]. intros df'. apply keeps_ret.
    - apply keeps_bind; [apply keeps_pinned_spark_property|].
      intros [sess|]; [|apply keeps_raise]. apply keeps_pinned_call. }
  destruct Hpin as [b Hpin]. exists b. split; [done|].
  intros env'. by apply _detect_connection_type_pinned.
Qed.

(** X11.  When the property [connection] raises, no connection is stored, so
    the next access tries again; and the mode is then pinned to the SQL
    connector, since only that path opens a connection. *)
Theorem failed_connection_is_not_stored (env : environ) (p p1 : process) (e : exn) :
  connection_property env p = (Raise e, p1) →
  _connection (self p1) = None ∧ pinned true p1.
Proof.
  unfold connection_property, bind, get_self, ret.
  destruct (_connection (self p)) as [c0|] eqn:Hc0; [done|].
  destruct (_detect_connection_type_pins env p) as (b & Hb & Hpin).
  assert (Hnone : _connection (self (_detect_connection_type env p).2) = None).
  { unfold _detect_connection_type, bind, get_self. cbn.
    destruct (_use_sql_connector (self p)); [done|].
    repeat (case_match; try done). }
  destruct (_detect_connection_type env p) as [r q]. cbn in Hb, Hpin, Hnone. subst r.
  destruct b; [|done].
  unfold _get_sql_connection.
  match goal with |- context [if ?b then _ else _] => destruct b end.
  - unfold raise. by intros [= <- <-].
  - unfold call. destruct (sql_connect _ _ _ (outside q)) as [[c|e'] w]; [done|].
    intros [= <- <-]. done.
Qed.

(** X12.  The host may be given bare or with a scheme: [DATABRICKS_HOST] set
    to [h], to [https://h] or to [http://h] gives the same server host name
    [h], for every [h] that does not itself contain a scheme. *)
Theorem sql_host_strips_the_scheme (env : environ) (h : string) :
  free_of "https://" h = true →
  free_of "http://" h = true →
  getenv env "DATABRICKS_HOST" = Some h
  ∨ getenv env "DATABRICKS_HOST" = Some ("https://" +:+ h)
  ∨ getenv env "DATABRICKS_HOST" = Some ("http://" +:+ h) →
  sql_host env = h.
Proof.
  intros Hs Hp Hhost. unfold sql_host.
  assert (Hbare : replace "http://" "" (replace "https://" "" h) = h)
    by (by rewrite (replace_free_of "https://"), (replace_free_of "http://")).
  destruct Hhost as [ -> | [ -> | -> ] ].
  - exact Hbare.
  - change (default "" (Some ("https://" +:+ h))) with ("https://" +:+ h).
    rewrite replace_https_prefix. exact Hbare.
  - change (default "" (Some ("http://" +:+ h))) with ("http://" +:+ h).
    rewrite (replace_free_of "https://").
    + rewrite replace_http_prefix. by apply replace_free_of.
    + cbn. exact Hs.
Qed.

Lemma cache__detect_connection_type env p :
  cache (_detect_connection_type env p).2 = cache p.
Proof.
  unfold _detect_connection_type, bind, get_self.
  destruct (_use_sql_connector (self p)); [done|].
  repeat (case_match; try done).
Qed.

Lemma cache__execute_query env query p :
  cache (_execute_query env query p).2 = cache p.
Proof.
  apply (keeps__execute_query_recorded (λ q : process, cache q = cache p) (λ _ : event, True)); try done.
  intros env' q Hq. by rewrite cache__detect_connection_type.
Qed.

(** X13.  The ad-hoc path and the health check go around the cache: they
    leave it as it is, and two identical custom queries enter
    [_execute_query] twice. *)
Theorem custom_query_is_not_cached (env env' : environ) (query : string) (p : process) :
  cache (execute_custom_query env query p).2 = cache p ∧
  cache (health_check env p).2 = cache p ∧
  executions (execute_custom_query env' query (execute_custom_query env query p).2).2
  = S (S (executions p)).
Proof.
  split_and!.
  - apply cache__execute_query.
  - unfold health_check.
    pose proof (cache__execute_query env "SELECT 1 as health" p) as Hc.
    by destruct (_execute_query env "SELECT 1 as health" p) as [[df|e] q].
  - unfold execute_custom_query. by rewrite !executions__execute_query.
Qed.

(** X14.  [get_connection_info] never raises and never leaves the process:
    it returns the label of the mode it finds or resolves, stores that mode,
    and changes nothing else. *)
Theorem connection_info_is_local (env : environ) (p : process) :
  ∃ (b : bool) (p' : process),
    get_connection_info env p
    = (Ok (if b then "SQL Warehouse (Serverless)"
           else "Classic Cluster (Databricks Connect)"), p') ∧
    pinned b p' ∧
    _connection (self p') = _connection (self p) ∧
    _spark (self p') = _spark (self p) ∧
    outside p' = outside p ∧ trace p' = trace p ∧ cache p' = cache p.
Proof.
  unfold get_connection_info, _detect_connection_type, bind, get_self, pinned.
  destruct (_use_sql_connector (self p)) as [b|] eqn:Hmode.
  - exists b, p. by destruct b.
  - destruct (truthy (getenv env "DATABRICKS_RUNTIME_VERSION")),
             (truthy (getenv env "DATABRICKS_WAREHOUSE_ID")),
             (truthy (getenv env "DATABRICKS_HTTP_PATH")),
             (truthy (getenv env "DATABRICKS_CLUSTER_ID"));
      cbn; (by eexists true, _) || (by eexists false, _).
Qed.

End MoreLayerFacts2.

Section MoreCatalogFacts.
Context `{Pandas} `{!Databricks}.

(** Filling a dictionary from entries with distinct keys keeps them in
    order. *)
Lemma foldl_dict_set_distinct {V} (f : string * column → V) (df : DataFrame) :
  NoDup (columns df) →
  foldl (λ d kc, dict_set kc.1 (f kc) d) [] df
  = (λ kc : string * column, (kc.1, f kc)) <$> df.
Proof.
  unfold columns.
  assert (Hgen : ∀ d : list (string * V),
    NoDup (d.*1 ++ df.*1) →
    foldl (λ d kc, dict_set kc.1 (f kc) d) d df
    = d ++ ((λ kc : string * column, (kc.1, f kc)) <$> df)).
  { induction df as [|[k c] df IH]; intros d Hd.
    - cbn. by rewrite app_nil_r.
    - cbn [foldl fst]. rewrite dict_set_fresh.
      + rewrite IH.
        * rewrite fmap_cons. cbn [fst]. by rewrite <- app_assoc.
        * rewrite fmap_app. cbn. rewrite <- app_assoc. exact Hd.
      + apply NoDup_app in Hd as (_ & Hd & _). intros Hin.
        apply (Hd k Hin). rewrite fmap_cons. apply list_elem_of_here. }
  intros Hdf. apply (Hgen []). exact Hdf.
Qed.

(** X15.  [get_kpi_metrics] raises [IndexError] when the query returns no
    row: [result.iloc[0]] is out of bounds.  Nothing is stored, so the next
    call executes the query again. *)
Theorem kpi_metrics_raises_on_empty_result
    (env : environ) (now : Z) (p p1 : process) (df : DataFrame) :
  (∀ e, cache p !! kpi_metrics = Some e → ¬ (now - stored_at e < 3600)%Z) →
  _execute_query env (query_of kpi_metrics) p = (Ok df, p1) →
  nrows df = 0%nat →
  get_metric env now kpi_metrics p
  = (Raise (IndexError "single positional indexer is out-of-bounds"), p1)
  ∧ cache p1 = cache p.
Proof.
  intros Hstale Hexec Hrows. split.
  - unfold get_metric, getOrCompute.
    assert (Hbody : metric_body env kpi_metrics p
                    = (Raise (IndexError "single positional indexer is out-of-bounds"), p1)).
    { unfold metric_body, bind. rewrite Hexec. unfold lift, first_row_to_dict.
      by rewrite Hrows. }
    rewrite Hbody.
    destruct (cache p !! kpi_metrics) as [e|] eqn:He; [|done].
    rewrite bool_decide_eq_false_2; [done | by apply Hstale].
  - rewrite <- (cache__execute_query env (query_of kpi_metrics) p). by rewrite Hexec.
Qed.

(** X16.  On a result with at least one row and distinct column names
    [get_kpi_metrics] returns the mapping from each column name to the value
    in the first row, in column order, and stores it. *)
Theorem kpi_metrics_returns_first_row
    (env : environ) (now : Z) (p p1 : process) (df : DataFrame) :
  (∀ e, cache p !! kpi_metrics = Some e → ¬ (now - stored_at e < 3600)%Z) →
  _execute_query env (query_of kpi_metrics) p = (Ok df, p1) →
  nrows df ≠ 0%nat →
  NoDup (columns df) →
  let first_row :=
    (λ kc : string * column, (kc.1, default PyNull (tolist kc.2 !! 0%nat))) <$> df in
  get_metric env now kpi_metrics p
  = (Ok (Mapping first_row),
     {| self := self p1; outside := outside p1; trace := trace p1;
        cache := <[kpi_metrics := {| cached := Mapping first_row; stored_at := now |}]>
                   (cache p1) |}).
Proof.
  intros Hstale Hexec Hrows Hnd. cbn zeta.
  unfold get_metric, getOrCompute.
  assert (Hbody : metric_body env kpi_metrics p
    = (Ok (Mapping ((λ kc : string * column,
                       (kc.1, default PyNull (tolist kc.2 !! 0%nat))) <$> df)), p1)).
  { unfold metric_body, bind. rewrite Hexec. unfold lift, first_row_to_dict.
    destruct (nrows df) as [|n]; [done|].
    by rewrite (foldl_dict_set_distinct
                  (λ kc, default PyNull (tolist kc.2 !! 0%nat)) df Hnd). }
  rewrite Hbody.
  destruct (cache p !! kpi_metrics) as [e|] eqn:He; [|done].
  rewrite bool_decide_eq_false_2; [done | by apply Hstale].
Qed.

End MoreCatalogFacts.

Section MoreExecutionFacts.
Context `{PandasLaws} `{!Databricks}.

Lemma columns_imap_named {B} (g : nat → string → B) (names : list string) :
  (imap (λ j name, (name, g j name)) names).*1 = names.
Proof.
  revert g. induction names as [|k names IH]; intros g; [done|].
  rewrite imap_cons, fmap_cons. cbn [fst]. f_equal. apply (IH (λ j, g (S j))).
Qed.

Lemma row_width_uniform (data : list (list pyobj)) (n : nat) :
  data ≠ [] → Forall (λ row, length row = n) data → row_width data = n.
Proof.
  induction data as [|row data IH]; [done|]. intros _ Hw.
  apply Forall_cons in Hw as [Hrow Hw]. cbn [row_width foldr].
  destruct data as [|row' data].
  - cbn. lia.
  - fold (row_width (row' :: data)). rewrite IH by done. lia.
Qed.

(** The frame built from rows of the width of the names: it has the names,
    in order, and one cell per row in every column. *)
Lemma DataFrame_of_rows_shape (data : list (list pyobj)) (names : list string) :
  Forall (λ row, length row = length names) data →
  ∃ raw, DataFrame_of_rows data names = Ok raw ∧
         columns raw = names ∧
         Forall (λ kc, length (tolist kc.2) = length data) raw.
Proof.
  intros Hw. unfold DataFrame_of_rows. destruct data as [|row data].
  - eexists. split_and!; [done| |].
    + unfold columns. rewrite <- list_fmap_compose. apply list_fmap_id.
    + apply Forall_fmap, Forall_forall. done.
  - rewrite (row_width_uniform (row :: data) (length names)) by done.
    rewrite Nat.eqb_refl. eexists. split_and!; [done| |].
    + apply columns_imap_named.
    + apply Forall_forall. intros [k c] Hin.
      apply elem_of_lookup_imap in Hin as (j & name & Heq & _).
      injection Heq as -> ->. cbn [snd].
      rewrite tolist_from_list. cbn [length]. f_equal.
      apply (length_fmap (λ row : list pyobj, default PyNull (row !! j))).
Qed.

Lemma new_names_distinct (seen names : list string) :
  NoDup (seen ++ names) → new_names seen names = names.
Proof.
  revert seen. induction names as [|k names IH]; intros seen Hnd; [done|].
  cbn [new_names]. pose proof Hnd as Hnd'.
  apply NoDup_app in Hnd' as (Hs & Hdisj & Hn).
  rewrite decide_False.
  - f_equal. apply IH. by rewrite <- app_assoc.
  - intros Hin. apply (Hdisj k Hin). apply list_elem_of_here.
Qed.

(** What [_execute_query] builds from a fetch on the warehouse path: when
    the described names are distinct and every row is as wide as the
    description, the normalised frame has the described names in the
    described order and one cell per fetched row in every column. *)
Lemma fetched_frame_keeps_description
    (data : list (list pyobj)) (names : list string) :
  NoDup names →
  Forall (λ row, length row = length names) data →
  ∃ out,
    DataFrame_of_rows data names ≫= _convert_numeric_columns = Ok out ∧
    columns out = names ∧
    Forall (λ kc, length (tolist kc.2) = length data) out.
Proof.
  intros Hnd Hw.
  destruct (DataFrame_of_rows_shape data names Hw) as (raw & Hraw & Hcols & Hlen).
  rewrite Hraw. cbn [mbind result_bind rbind].
  exists (map_columns converted_column (rebuilt raw)). split_and!.
  - apply _convert_numeric_columns_spec.
  - rewrite columns_map_columns. unfold rebuilt.
    rewrite columns_DataFrame_of_dict, to_dict_list_keys, Hcols.
    by apply new_names_distinct.
  - rewrite rebuilt_distinct by (by rewrite Hcols).
    rewrite map_columns_compose. unfold map_columns. apply Forall_fmap.
    eapply Forall_impl; [exact Hlen|]. intros [k c] Hc. cbn in Hc |- *.
    by rewrite length_tolist_converted_column, tolist_from_list.
Qed.

(** When there are rows and the widest is not as wide as the names, the frame
    constructor raises, and the normaliser is not reached. *)
Lemma DataFrame_of_rows_raises (data : list (list pyobj)) (names : list string) :
  data ≠ [] → row_width data ≠ length names →
  ∃ e, DataFrame_of_rows data names ≫= _convert_numeric_columns = Raise e.
Proof.
  intros Hdata Hw. unfold DataFrame_of_rows. destruct data as [|row data]; [done|].
  rewrite (proj2 (Nat.eqb_neq _ _) Hw). by eexists.
Qed.

End MoreExecutionFacts.

Section MoreExecutionFacts2.
Context `{PandasLaws} `{!Databricks}.

(** X17.  What a query on the warehouse path returns: with the connection
    stored, when the cursor describes distinct names and every fetched row is
    as wide as the description, [_execute_query] returns a frame with the
    described names in the described order and one cell per fetched row in
    every column. *)
Theorem execute_query_keeps_description
    (env : environ) (query : string) (p : process) (c : connection)
    (description : list (string * string)) (data : list (list pyobj)) (w : world) :
  pinned true p →
  _connection (self p) = Some c →
  cursor_fetch c query (outside p) = (Ok (description, data), w) →
  NoDup description.*1 →
  Forall (λ row, length row = length description) data →
  ∃ out,
    (_execute_query env query p).1 = Ok out ∧
    columns out = description.*1 ∧
    Forall (λ kc, length (tolist kc.2) = length data) out.
Proof.
  intros Hmode Hconn Hfetch Hnd Hw.
  destruct (fetched_frame_keeps_description data description.*1 Hnd)
    as (out & Hout & Hcols & Hlen).
  { eapply Forall_impl; [exact Hw|]. intros row Hrow. cbn. by rewrite length_fmap. }
  exists out. split_and!; [|done|done].
  unfold pinned in Hmode.
  unfold _execute_query, connection_property, _detect_connection_type,
    bind, record, get_self, ret, call, lift.
  cbn. rewrite Hmode. cbn. rewrite Hconn. cbn. rewrite Hconn. cbn.
  rewrite Hfetch. cbn.
  destruct (DataFrame_of_rows data description.*1) as [raw|e]; [|done].
  cbn in Hout |- *. by rewrite Hout.
Qed.

End MoreExecutionFacts2.

(** ** The further facts on the sample *)

Lemma _convert_numeric_columns_keeps_last_witness :
  repeated_name_frame
    = [("a", NumericCol [Some 1%Z])] ++ ("a", NumericCol [Some 2%Z]) :: [] ∧
  ("a" ∉ columns (@nil (string * column))) ∧
  ∃ out, _convert_numeric_columns repeated_name_frame = Ok out ∧
         ("a", converted_column (from_list (tolist (NumericCol [Some 2%Z])))) ∈ out.
Proof.
  assert (Hdf : repeated_name_frame
    = [("a", NumericCol [Some 1%Z])] ++ ("a", NumericCol [Some 2%Z]) :: [])
    by reflexivity.
  assert (Hafter : "a" ∉ columns (@nil (string * column))) by apply not_elem_of_nil.
  split_and!; [exact Hdf | exact Hafter |].
  exact (_convert_numeric_columns_keeps_last repeated_name_frame _ _ _ _ Hdf Hafter).
Defined.

Lemma sample_frame_NoDup : NoDup (columns sample_frame).
Proof.
  cbn. repeat constructor; rewrite ?elem_of_cons, ?elem_of_nil; intros Hin;
    decompose [or] Hin; done.
Qed.

Lemma sample_frame_returns : Forall (λ kc, to_numeric_returns kc.2) sample_frame.
Proof. repeat constructor. Qed.

Lemma ensure_numeric_columns_idempotent_witness :
  NoDup (columns sample_frame) ∧
  Forall (λ kc, to_numeric_returns kc.2) sample_frame ∧
  ensure_numeric_columns sample_frame ≫= ensure_numeric_columns
  = ensure_numeric_columns sample_frame.
Proof.
  split_and!; [exact sample_frame_NoDup | exact sample_frame_returns |].
  exact (ensure_numeric_columns_idempotent sample_frame
           sample_frame_NoDup sample_frame_returns).
Defined.

Lemma ensure_after_convert_is_identity_witness :
  let out := [ ("amount", NumericCol [Some 10%Z; Some 20%Z; None; Some 30%Z]);
               ("label", ObjectCol [PyStr "a"; PyStr "b"; PyStr "c"; PyStr "d"]) ] in
  _convert_numeric_columns sample_frame = Ok out ∧
  Forall (λ kc, to_numeric_returns kc.2) out ∧
  ensure_numeric_columns out = Ok out.
Proof.
  intros out.
  assert (Hout : _convert_numeric_columns sample_frame = Ok out) by reflexivity.
  assert (Hret : Forall (λ kc, to_numeric_returns kc.2) out) by repeat constructor.
  split_and!; [exact Hout | exact Hret |].
  exact (ensure_after_convert_is_identity sample_frame out Hout Hret).
Defined.


Lemma connection_is_reused_witness :
  connection_property warehouse_env fresh = (Ok (Some tt), connected) ∧
  connection_property cluster_env connected = (Ok (Some tt), connected).
Proof.
  assert (Hfirst : connection_property warehouse_env fresh = (Ok (Some tt), connected))
    by (vm_compute; reflexivity).
  split; [exact Hfirst|].
  exact (connection_is_reused warehouse_env cluster_env fresh connected tt Hfirst).
Defined.

Lemma spark_session_is_reused_witness :
  spark_property cluster_env fresh = (Ok (Some tt), in_session) ∧
  spark_property warehouse_env in_session = (Ok (Some tt), in_session).
Proof.
  assert (Hfirst : spark_property cluster_env fresh = (Ok (Some tt), in_session))
    by (vm_compute; reflexivity).
  split; [exact Hfirst|].
  exact (spark_session_is_reused cluster_env warehouse_env fresh in_session tt Hfirst).
Defined.

Lemma connected_pinned : pinned true connected.
Proof. vm_compute. reflexivity. Qed.

Lemma connected_connection : _connection (self connected) = Some tt.
Proof. vm_compute. reflexivity. Qed.

Lemma execute_query_on_stored_connection_witness :
  pinned true connected ∧
  _connection (self connected) = Some tt ∧
  _execute_query cluster_env "SELECT 1" connected
  = ((cursor_fetch tt "SELECT 1" (outside connected)).1 ≫= λ fetched,
       DataFrame_of_rows fetched.2 fetched.1.*1 ≫= _convert_numeric_columns,
     {| self := self connected;
        outside := (cursor_fetch tt "SELECT 1" (outside connected)).2;
        trace := Fetches "SELECT 1" :: Executes "SELECT 1" :: trace connected;
        cache := cache connected |}).
Proof.
  split_and!; [exact connected_pinned | exact connected_connection |].
  exact (execute_query_on_stored_connection cluster_env "SELECT 1" connected tt
           connected_pinned connected_connection).
Defined.

Lemma execute_query_stays_on_its_path_witness :
  pinned true connected ∧
  List.filter is_spark_event (trace (_execute_query cluster_env "SELECT 1" connected).2)
  = List.filter is_spark_event (trace connected).
Proof.
  split; [exact connected_pinned|].
  exact (proj2 (execute_query_stays_on_its_path cluster_env "SELECT 1" connected)
           connected_pinned).
Defined.

Lemma failed_connection_is_not_stored_witness :
  let p1 := (connection_property token_only_env fresh).2 in
  connection_property token_only_env fresh
    = (Raise (ValueError missing_configuration), p1) ∧
  _connection (self p1) = None ∧ pinned true p1.
Proof.
  intros p1.
  assert (Hfail : connection_property token_only_env fresh
                  = (Raise (ValueError missing_configuration), p1))
    by (vm_compute; reflexivity).
  split; [exact Hfail|].
  exact (failed_connection_is_not_stored token_only_env fresh p1 _ Hfail).
Defined.

Lemma sql_host_strips_the_scheme_witness :
  free_of "https://" "dbc-1.cloud.databricks.com" = true ∧
  free_of "http://" "dbc-1.cloud.databricks.com" = true ∧
  (getenv warehouse_env "DATABRICKS_HOST" = Some "dbc-1.cloud.databricks.com"
   ∨ getenv warehouse_env "DATABRICKS_HOST"
     = Some ("https://" +:+ "dbc-1.cloud.databricks.com")
   ∨ getenv warehouse_env "DATABRICKS_HOST"
     = Some ("http://" +:+ "dbc-1.cloud.databricks.com")) ∧
  sql_host warehouse_env = "dbc-1.cloud.databricks.com".
Proof.
  assert (H1 : free_of "https://" "dbc-1.cloud.databricks.com" = true) by reflexivity.
  assert (H2 : free_of "http://" "dbc-1.cloud.databricks.com" = true) by reflexivity.
  assert (H3 : getenv warehouse_env "DATABRICKS_HOST" = Some "dbc-1.cloud.databricks.com"
               ∨ getenv warehouse_env "DATABRICKS_HOST"
                 = Some ("https://" +:+ "dbc-1.cloud.databricks.com")
               ∨ getenv warehouse_env "DATABRICKS_HOST"
                 = Some ("http://" +:+ "dbc-1.cloud.databricks.com"))
    by (right; left; vm_compute; reflexivity).
  split_and!; [exact H1 | exact H2 | exact H3 |].
  exact (sql_host_strips_the_scheme warehouse_env _ H1 H2 H3).
Defined.

(** A host that wraps one scheme in another keeps a scheme: the two
    replacements run once each. *)
Example sql_host_nested_scheme :
  sql_host {[ "DATABRICKS_HOST" := "hhttps://ttps://dbc-1" ]} = "https://dbc-1".
Proof. reflexivity. Qed.

Lemma kpi_metrics_raises_on_empty_result_witness :
  let p1 := (@_execute_query values pandas empty_warehouse warehouse_env
               (query_of kpi_metrics) fresh_empty).2 in
  (∀ e, cache fresh_empty !! kpi_metrics = Some e → ¬ (0 - stored_at e < 3600)%Z) ∧
  @_execute_query values pandas empty_warehouse warehouse_env
    (query_of kpi_metrics) fresh_empty
  = (Ok [("total_orders", NumericCol [])], p1) ∧
  nrows [("total_orders", @NumericCol values [])] = 0%nat ∧
  @get_metric values pandas empty_warehouse warehouse_env 0 kpi_metrics fresh_empty
  = (Raise (IndexError "single positional indexer is out-of-bounds"), p1)
  ∧ cache p1 = cache fresh_empty.
Proof.
  intros p1.
  assert (Hstale : ∀ e, cache fresh_empty !! kpi_metrics = Some e →
                        ¬ (0 - stored_at e < 3600)%Z).
  { intros e He. cbn in He. rewrite lookup_empty in He. discriminate He. }
  assert (Hexec : @_execute_query values pandas empty_warehouse warehouse_env
                    (query_of kpi_metrics) fresh_empty
                  = (Ok [("total_orders", NumericCol [])], p1))
    by (vm_compute; reflexivity).
  assert (Hrows : nrows [("total_orders", @NumericCol values [])] = 0%nat) by reflexivity.
  refine (conj Hstale (conj Hexec (conj Hrows _))).
  exact (@kpi_metrics_raises_on_empty_result values pandas empty_warehouse
           warehouse_env 0 fresh_empty p1 _ Hstale Hexec Hrows).
Defined.

Lemma kpi_metrics_returns_first_row_witness :
  let p1 := (_execute_query warehouse_env (query_of kpi_metrics) fresh).2 in
  let df := [ ("amount", NumericCol [Some 10%Z; Some 20%Z; None; Some 30%Z]);
              ("label", ObjectCol [PyStr "a"; PyStr "b"; PyStr "c"; PyStr "d"]) ] in
  (∀ e, cache fresh !! kpi_metrics = Some e → ¬ (0 - stored_at e < 3600)%Z) ∧
  _execute_query warehouse_env (query_of kpi_metrics) fresh = (Ok df, p1) ∧
  nrows df ≠ 0%nat ∧
  NoDup (columns df) ∧
  get_metric warehouse_env 0 kpi_metrics fresh
  = (Ok (Mapping [("amount", PyNum 10%Z); ("label", PyStr "a")]),
     {| self := self p1; outside := outside p1; trace := trace p1;
        cache := <[kpi_metrics :=
                     {| cached := Mapping [("amount", PyNum 10%Z); ("label", PyStr "a")];
                        stored_at := 0 |}]> (cache p1) |}).
Proof.
  intros p1 df.
  assert (Hstale : ∀ e, cache fresh !! kpi_metrics = Some e →
                        ¬ (0 - stored_at e < 3600)%Z).
  { intros e He. cbn in He. rewrite lookup_empty in He. discriminate He. }
  assert (Hexec : _execute_query warehouse_env (query_of kpi_metrics) fresh = (Ok df, p1))
    by (vm_compute; reflexivity).
  assert (Hrows : nrows df ≠ 0%nat) by (cbn; lia).
  assert (Hnd : NoDup (columns df)).
  { cbn. repeat constructor; rewrite ?elem_of_cons, ?elem_of_nil; intros Hin;
      decompose [or] Hin; done. }
  refine (conj Hstale (conj Hexec (conj Hrows (conj Hnd _)))).
  exact (kpi_metrics_returns_first_row warehouse_env 0 fresh p1 df
           Hstale Hexec Hrows Hnd).
Defined.

Lemma execute_query_keeps_description_witness :
  @PandasLaws values pandas ∧
  pinned true connected ∧
  _connection (self connected) = Some tt ∧
  cursor_fetch tt "SELECT 1" (outside connected)
  = (Ok ([("amount", "string"); ("label", "string")], sample_rows), 2%nat) ∧
  NoDup ([("amount", "string"); ("label", "string")].*1) ∧
  Forall (λ row : list pyobj,
            length row = length [("amount", "string"); ("label", "string")])
    sample_rows ∧
  ∃ out,
    (_execute_query cluster_env "SELECT 1" connected).1 = Ok out ∧
    columns out = [("amount", "string"); ("label", "string")].*1 ∧
    Forall (λ kc, length (tolist kc.2) = length sample_rows) out.
Proof.
  assert (Hfetch : cursor_fetch tt "SELECT 1" (outside connected)
    = (Ok ([("amount", "string"); ("label", "string")], sample_rows), 2%nat))
    by (vm_compute; reflexivity).
  assert (Hnd : NoDup ([("amount", "string"); ("label", "string")].*1)).
  { cbn. repeat constructor; rewrite ?elem_of_cons, ?elem_of_nil; intros Hin;
      decompose [or] Hin; done. }
  assert (Hw : Forall (λ row : list pyobj,
                         length row = length [("amount", "string"); ("label", "string")])
                 sample_rows) by (repeat constructor).
  refine (conj sample_laws (conj connected_pinned (conj connected_connection
            (conj Hfetch (conj Hnd (conj Hw _)))))).
  exact (@execute_query_keeps_description values pandas sample_laws databricks
           cluster_env "SELECT 1" connected tt _ _ _
           connected_pinned connected_connection Hfetch Hnd Hw).
Defined.
